(** * Pipeline run orchestration: artifact check, approval gate, step loop

    A shallow embedding of [pipeline_cli] (modules [models], [artifacts],
    [errors] and [pipeline], then the interactive parts of [cli] and
    [logging_conf]) and the properties of [run_pipeline] and its callers.

    Python strings are [string]; each [ascii] stands for one code point in
    the range U+0000..U+00FF.  The float [simulate_seconds] is a
    [spec_float].  The host effects of the program (the wall clock, the
    console, [time.sleep] and the logger) act on an explicit [World]; the
    program itself lives in a state-and-exception monad over that world. *)

From Stdlib Require Import String Ascii List Bool Arith Lia ZArith.
From Stdlib Require Import Floats.SpecFloat.
Import ListNotations.
Open Scope string_scope.
Open Scope list_scope.

(** ** models.py *)

Module Models.

(** [StepStatus] and [RunStatus] are [Literal] types: plain strings at
    run time. *)
Definition StepStatus := string.
Definition RunStatus := string.

Record StepResult := mkStepResult {
  name : string;
  status : StepStatus;
  started_at : string;
  finished_at : string;
  message : string
}.

Record RunResult := mkRunResult {
  run_id : string;
  artifact : string;
  approved : bool;
  run_status : RunStatus;
  run_started_at : string;
  run_finished_at : string;
  steps : list StepResult
}.

End Models.
Import Models.

(** ** errors.py, and the built-in exceptions the host calls can raise

    [OverflowError] and [EOFError] come without their message, whose text
    is the interpreter's own. *)

Inductive exn :=
| ArtifactNotFoundError (msg : string)
| ApprovalRejectedError (msg : string)
| ValueError (msg : string)
| OverflowError
| EOFError.

(** ** The host: clock, console, sleep and logger *)

Inductive level := INFO | WARNING | ERROR.

Inductive event :=
| EvNow (t : string)
| EvLog (lvl : level) (rid : string) (msg : string)
| EvSleep (secs : spec_float)
| EvInput (prompt : string) (line : string).

(** [clock] is the sequence of readings the wall clock will give, [reads]
    the number of readings taken so far, [stdin] the lines still to come on
    the console, and [trace] the effects performed so far, oldest first. *)
Record World := mkWorld {
  clock : nat -> string;
  reads : nat;
  stdin : list string;
  trace : list event
}.

Definition emit (e : event) (w : World) : World :=
  mkWorld (clock w) (reads w) (stdin w) (trace w ++ [e]).

Inductive result (A : Type) :=
| Ok (a : A)
| Raise (e : exn).
Arguments Ok {A} a.
Arguments Raise {A} e.

Definition M (A : Type) : Type := World -> result A * World.

Definition ret {A} (a : A) : M A := fun w => (Ok a, w).

Definition raise {A} (e : exn) : M A := fun w => (Raise e, w).

Definition bind {A B} (m : M A) (f : A -> M B) : M B :=
  fun w =>
    match m w with
    | (Ok a, w') => f a w'
    | (Raise e, w') => (Raise e, w')
    end.

Declare Scope py_scope.
Delimit Scope py_scope with py.
Notation "x <- m ;; k" := (bind m (fun x => k))
  (at level 61, m at next level, right associativity) : py_scope.
Notation "m ;; k" := (bind m (fun _ => k))
  (at level 61, right associativity) : py_scope.
Open Scope py_scope.

(** [models.utc_now_iso]: one reading of the clock. *)
Definition utc_now_iso : M string :=
  fun w =>
    let t := clock w (reads w) in
    (Ok t, mkWorld (clock w) (S (reads w)) (stdin w) (trace w ++ [EvNow t])).

(** [logger.info], [logger.warning], [logger.error] with
    [extra={"run_id": rid}]; [msg] is the formatted message. *)
Definition logger_log (lvl : level) (rid msg : string) : M unit :=
  fun w => (Ok tt, emit (EvLog lvl rid msg) w).

Definition float_zero : spec_float := S754_zero false.

Definition is_nan (x : spec_float) : bool :=
  match x with S754_nan => true | _ => false end.

(** One second in nanoseconds, and the bounds of a signed 64-bit count
    (minus and plus 2^63), as binary64 floats in canonical form. *)
Definition ns_per_second : spec_float := S754_finite false 8388608000000000 (-23).
Definition time_min : spec_float := S754_finite true 4503599627370496 11.
Definition time_limit : spec_float := S754_finite false 4503599627370496 11.

(** [time.sleep] turns its argument into a signed 64-bit count of
    nanoseconds: the product by 1e9 is taken in binary64, and a product
    outside [-2^63, 2^63) is an overflow.  Rounding the product to a whole
    number, which comes in between, cannot move it across either bound. *)
Definition timer_overflow (secs : spec_float) : bool :=
  let ns := SFmul 53 1024 secs ns_per_second in
  negb (SFleb time_min ns && SFltb ns time_limit).

(** [time.sleep], in the order of its checks: NaN is a [ValueError], a
    duration that does not fit the timer (both infinities, and anything
    from about 9.2e9 seconds on) an [OverflowError], a negative duration a
    [ValueError]; otherwise the call suspends the run and returns. *)
Definition time_sleep (secs : spec_float) : M unit :=
  fun w =>
    if is_nan secs then (Raise (ValueError "Invalid value NaN (not a number)"), w)
    else if timer_overflow secs then (Raise OverflowError, w)
    else if SFltb secs float_zero
    then (Raise (ValueError "sleep length must be non-negative"), w)
    else (Ok tt, emit (EvSleep secs) w).

(** The built-in [input]: the next console line, [EOFError] at end of
    input. *)
Definition input (prompt : string) : M string :=
  fun w =>
    match stdin w with
    | [] => (Raise EOFError, w)
    | line :: rest =>
        (Ok line,
         mkWorld (clock w) (reads w) rest (trace w ++ [EvInput prompt line]))
    end.

(** ** Built-ins on values *)

(** [max(a, b)] on floats: [b] when [b > a], else [a]. *)
Definition py_max (a b : spec_float) : spec_float :=
  if SFltb a b then b else a.

Definition code (c : ascii) : nat := nat_of_ascii c.

(** Code points below U+0100 for which [str.isspace] holds. *)
Definition is_space (c : ascii) : bool :=
  let n := code c in
  (((9 <=? n) && (n <=? 13)) || ((28 <=? n) && (n <=? 32))
   || (n =? 133) || (n =? 160))%nat.

(** [str.lower] on one code point below U+0100. *)
Definition lower_char (c : ascii) : ascii :=
  let n := code c in
  if (((65 <=? n) && (n <=? 90))
      || ((192 <=? n) && (n <=? 222) && negb (n =? 215)))%nat
  then ascii_of_nat (n + 32) else c.

Fixpoint str_lower (s : string) : string :=
  match s with
  | EmptyString => EmptyString
  | String c r => String (lower_char c) (str_lower r)
  end.

Fixpoint lstrip (s : string) : string :=
  match s with
  | EmptyString => EmptyString
  | String c r => if is_space c then lstrip r else s
  end.

Fixpoint rstrip (s : string) : string :=
  match s with
  | EmptyString => EmptyString
  | String c r =>
      match rstrip r with
      | EmptyString => if is_space c then EmptyString else String c EmptyString
      | r' => String c r'
      end
  end.

Definition str_strip (s : string) : string := rstrip (lstrip s).

(** Truthiness of an [Optional[str]]: [None] and the empty string are
    false. *)
Definition truthy (o : option string) : bool :=
  match o with
  | None => false
  | Some s => negb (s =? "")
  end.

(** [step == fail_step] for a string and an [Optional[str]]. *)
Definition eq_opt (s : string) (o : option string) : bool :=
  match o with
  | None => false
  | Some t => s =? t
  end.

(** [list.index]: position of the first occurrence, [ValueError] when
    there is none. *)
Fixpoint index_of (x : string) (l : list string) : option nat :=
  match l with
  | [] => None
  | y :: r => if y =? x then Some 0
              else match index_of x r with
                   | Some i => Some (S i)
                   | None => None
                   end
  end.

Definition list_index (x : string) (l : list string) : M nat :=
  match index_of x l with
  | Some i => ret i
  | None => raise (ValueError ("'" ++ x ++ "' is not in list")%string)
  end.

(** ** artifacts.py *)

Module Artifacts.

Record Artifact := mkArtifact {
  key : string;
  description : string
}.

Definition DEFAULT_ARTIFACTS : list Artifact :=
  [ mkArtifact "api-service@1.0.0" "API service container image";
    mkArtifact "web-frontend@2.3.1" "Web frontend static bundle";
    mkArtifact "worker@0.9.5" "Background worker binary" ].

Definition list_artifacts : list Artifact := DEFAULT_ARTIFACTS.

Definition artifact_exists (k : string) : bool :=
  existsb (fun a => key a =? k) DEFAULT_ARTIFACTS.

End Artifacts.
Import Artifacts.

(** ** pipeline.py *)

Definition PIPELINE_STEPS : list string := ["build"; "test"; "package"; "deploy"].

Definition default_prompt : string := "Approve deployment? (y/N): ".

(** [ans in ("y", "yes", "o", "oui")] *)
Definition accepted (ans : string) : bool :=
  existsb (String.eqb ans) ["y"; "yes"; "o"; "oui"].

Definition require_approval (prompt : string) (auto_yes : bool) : M bool :=
  if auto_yes then ret true
  else
    line <- input prompt ;;
    let ans := str_lower (str_strip line) in
    ret (accepted ans).

(** The inner loop of [run_pipeline] (lines 73-83): one [skipped] result
    per remaining step, each with a single clock reading. *)
Fixpoint skip_remaining (remaining : list string) (step_results : list StepResult)
  : M (list StepResult) :=
  match remaining with
  | [] => ret step_results
  | r :: rest =>
      now <- utc_now_iso ;;
      skip_remaining rest
        (step_results ++
           [mkStepResult r "skipped" now now "Skipped due to previous failure."])
  end.

(** The step loop of [run_pipeline] (lines 51-96).  [steps] is the list the
    loop runs over, which the inner slice reads again in full; [todo] is
    what is left of it.  The loop state is the pair of [step_results] and
    [overall_status]. *)
Fixpoint step_loop (rid : string) (steps todo : list string)
    (fail_step : option string) (simulate_seconds : spec_float)
    (step_results : list StepResult) (overall_status : RunStatus)
  : M (list StepResult * RunStatus) :=
  match todo with
  | [] => ret (step_results, overall_status)
  | step :: rest =>
      step_start <- utc_now_iso ;;
      logger_log INFO rid ("Step started: " ++ step)%string ;;
      time_sleep (py_max float_zero simulate_seconds) ;;
      if truthy fail_step && eq_opt step fail_step then
        step_end <- utc_now_iso ;;
        let msg := ("Simulated failure at step '" ++ step ++ "'.")%string in
        logger_log ERROR rid msg ;;
        let step_results :=
          step_results ++ [mkStepResult step "failed" step_start step_end msg] in
        let overall_status := "failed" in
        i <- list_index step steps ;;
        step_results <- skip_remaining (skipn (i + 1) steps) step_results ;;
        ret (step_results, overall_status)
      else
        step_end <- utc_now_iso ;;
        let step_results :=
          step_results ++ [mkStepResult step "success" step_start step_end "OK"] in
        logger_log INFO rid ("Step finished: " ++ step ++ " (success)")%string ;;
        step_loop rid steps rest fail_step simulate_seconds
          step_results overall_status
  end.

(** Lines 48-96: the loop started from the empty list and ["success"]. *)
Definition execute (rid : string) (steps : list string)
    (fail_step : option string) (simulate_seconds : spec_float)
  : M (list StepResult * RunStatus) :=
  step_loop rid steps steps fail_step simulate_seconds [] "success".

(** Lines 36-38: the artifact check. *)
Definition check_artifact (rid artifact_key : string) : M unit :=
  if negb (artifact_exists artifact_key) then
    logger_log ERROR rid ("Unknown artifact: " ++ artifact_key)%string ;;
    raise (ArtifactNotFoundError ("Unknown artifact: " ++ artifact_key)%string)
  else ret tt.

(** Lines 40-46: the approval gate; its value is the variable
    [approved]. *)
Definition approval_gate (rid : string) (require_manual_approval auto_yes : bool)
  : M bool :=
  if require_manual_approval then
    logger_log INFO rid "Waiting for manual approval..." ;;
    is_approved <- require_approval default_prompt auto_yes ;;
    if negb is_approved then
      logger_log WARNING rid "Approval rejected." ;;
      raise (ApprovalRejectedError "Approval rejected by user.")
    else ret is_approved
  else ret true.

(** [run_pipeline], reading the module constant [PIPELINE_STEPS] as the
    parameter [steps]. *)
Definition run_pipeline_over (steps : list string)
    (rid artifact_key : string) (require_manual_approval auto_yes : bool)
    (fail_step : option string) (simulate_seconds : spec_float)
  : M RunResult :=
  started <- utc_now_iso ;;
  logger_log INFO rid ("Run started. artifact=" ++ artifact_key)%string ;;
  check_artifact rid artifact_key ;;
  is_approved <- approval_gate rid require_manual_approval auto_yes ;;
  out <- execute rid steps fail_step simulate_seconds ;;
  finished <- utc_now_iso ;;
  let res :=
    mkRunResult rid artifact_key is_approved (snd out) started finished (fst out) in
  logger_log INFO rid ("Run finished. status=" ++ run_status res)%string ;;
  ret res.

(** [run_pipeline] itself: the run over [PIPELINE_STEPS]. *)
Abbreviation run_pipeline := (run_pipeline_over PIPELINE_STEPS).

(** ** Closed forms of what the loops produce *)

Definition skipped_message : string := "Skipped due to previous failure.".

Definition failure_message (step : string) : string :=
  ("Simulated failure at step '" ++ step ++ "'.")%string.

(** Results of a run of successful steps: the step at offset [j] starts at
    reading [k + 2j] and finishes at the next one. *)
Fixpoint success_results (ck : nat -> string) (k : nat) (l : list string)
  : list StepResult :=
  match l with
  | [] => []
  | s :: r =>
      mkStepResult s "success" (ck k) (ck (S k)) "OK"
        :: success_results ck (S (S k)) r
  end.

Definition failed_result (ck : nat -> string) (k : nat) (s : string)
  : StepResult :=
  mkStepResult s "failed" (ck k) (ck (S k)) (failure_message s).

(** Results of the skipped steps: one reading each. *)
Fixpoint skipped_results (ck : nat -> string) (k : nat) (l : list string)
  : list StepResult :=
  match l with
  | [] => []
  | s :: r =>
      mkStepResult s "skipped" (ck k) (ck k) skipped_message
        :: skipped_results ck (S k) r
  end.

Fixpoint success_trace (rid : string) (ck : nat -> string) (k : nat)
    (d : spec_float) (l : list string) : list event :=
  match l with
  | [] => []
  | s :: r =>
      EvNow (ck k)
        :: EvLog INFO rid ("Step started: " ++ s)%string
        :: EvSleep d
        :: EvNow (ck (S k))
        :: EvLog INFO rid ("Step finished: " ++ s ++ " (success)")%string
        :: success_trace rid ck (S (S k)) d r
  end.

Definition failed_trace (rid : string) (ck : nat -> string) (k : nat)
    (d : spec_float) (s : string) : list event :=
  [ EvNow (ck k);
    EvLog INFO rid ("Step started: " ++ s)%string;
    EvSleep d;
    EvNow (ck (S k));
    EvLog ERROR rid (failure_message s) ].

Fixpoint skipped_trace (ck : nat -> string) (k : nat) (l : list string)
  : list event :=
  match l with
  | [] => []
  | _ :: r => EvNow (ck k) :: skipped_trace ck (S k) r
  end.

(** The world after [n] more clock readings and the events [evs]. *)
Definition advance (w : World) (n : nat) (evs : list event) : World :=
  mkWorld (clock w) (reads w + n) (stdin w) (trace w ++ evs).

(** Does the loop take the failure branch at [step]? (line 57) *)
Definition triggers (fail_step : option string) (step : string) : bool :=
  truthy fail_step && eq_opt step fail_step.

Definition is_input (e : event) : bool :=
  match e with EvInput _ _ => true | _ => false end.

Definition is_sleep (e : event) : bool :=
  match e with EvSleep _ => true | _ => false end.

(** A world for the worked examples: the clock reads ["t"], ["t'"],
    ["t''"], ... *)
Fixpoint tick (n : nat) : string :=
  match n with
  | O => ""
  | S m => String "'" (tick m)
  end.

Definition sample_clock (n : nat) : string := ("t" ++ tick n)%string.

Definition sample_world (lines : list string) : World :=
  mkWorld sample_clock 0 lines [].


(** The world in which the artifact check runs: one clock reading and the
    opening log line. *)
Definition run_started (rid artifact_key : string) (w : World) : World :=
  advance w 1
    [ EvNow (clock w (reads w));
      EvLog INFO rid ("Run started. artifact=" ++ artifact_key)%string ].

(** What lines 98-109 add to the world [w2] the loop leaves. *)
Definition run_finished (rid : string) (ov : RunStatus) (w2 : World) : World :=
  advance w2 1
    [ EvNow (clock w2 (reads w2));
      EvLog INFO rid ("Run finished. status=" ++ ov)%string ].

Definition names (rs : list StepResult) : list string := map name rs.

Definition statuses (rs : list StepResult) : list string := map status rs.

(** The shape of the results when the run fails at the first occurrence of
    [f] in [S]. *)
Definition failure_shape (S : list string) (f : string) (rs : list StepResult)
  : Prop :=
  length rs = length S /\
  names rs = S /\
  exists pre post,
    S = pre ++ f :: post /\ ~ In f pre /\
    statuses rs
    = repeat "success" (length pre) ++ "failed" :: repeat "skipped" (length post).


(** What the step loop returns, and the world it leaves: either no step
    takes the failure branch, or the loop fails at the first occurrence of
    a non-empty [fail_step]. *)
Inductive loop_outcome (rid : string) (steps : list string)
    (fs : option string) (d : spec_float) (w : World)
  : list StepResult -> RunStatus -> World -> Prop :=
| loop_passed :
    (forall s, In s steps -> triggers fs s = false) ->
    loop_outcome rid steps fs d w
      (success_results (clock w) (reads w) steps) "success"
      (advance w (2 * length steps)
         (success_trace rid (clock w) (reads w) (py_max float_zero d) steps))
| loop_failed f pre post :
    fs = Some f -> f <> "" -> steps = pre ++ f :: post -> ~ In f pre ->
    loop_outcome rid steps fs d w
      (success_results (clock w) (reads w) pre
         ++ failed_result (clock w) (reads w + 2 * length pre) f
         :: skipped_results (clock w) (reads w + 2 * length pre + 2) post)
      "failed"
      (advance w (2 * length pre + 2 + length post)
         (success_trace rid (clock w) (reads w) (py_max float_zero d) pre
            ++ failed_trace rid (clock w) (reads w + 2 * length pre)
                 (py_max float_zero d) f
            ++ skipped_trace (clock w) (reads w + 2 * length pre + 2) post)).


(** ** Measures of a run, for the properties of the trace and the clock *)

Definition is_skipped (r : StepResult) : bool := status r =? "skipped".

(** The results of the steps that ran: the successful ones and the failed
    one. *)
Definition executed (rs : list StepResult) : list StepResult :=
  filter (fun r => negb (is_skipped r)) rs.

(** The timestamps of the step results in order; a skipped step holds one
    reading twice and counts once. *)
Definition stamps (rs : list StepResult) : list string :=
  flat_map (fun r => if is_skipped r then [started_at r]
                     else [started_at r; finished_at r]) rs.

Definition all_stamps (r : RunResult) : list string :=
  run_started_at r :: stamps (steps r) ++ [run_finished_at r].

Fixpoint all_space (s : string) : bool :=
  match s with
  | EmptyString => true
  | String c r => is_space c && all_space r
  end.

(** ** cli.py: the interactive choice of an artifact *)

From Stdlib Require Import DecimalString NArith.

(** What [rich]'s console shows: a line of text (markup as given) or a
    table. *)
Inductive output :=
| OutText (s : string)
| OutTable (title : string) (columns : list (string * string))
    (rows : list (list string)).

(** The host together with the console's screen, oldest output first. *)
Record Terminal := mkTerminal {
  host : World;
  screen : list output
}.

Definition T (A : Type) : Type := Terminal -> result A * Terminal.

Definition tret {A} (a : A) : T A := fun t => (Ok a, t).

Definition traise {A} (e : exn) : T A := fun t => (Raise e, t).

Definition tbind {A B} (m : T A) (f : A -> T B) : T B :=
  fun t =>
    match m t with
    | (Ok a, t') => f a t'
    | (Raise e, t') => (Raise e, t')
    end.

Declare Scope cli_scope.
Delimit Scope cli_scope with cli.
Notation "x <- m ;; k" := (tbind m (fun x => k))
  (at level 61, m at next level, right associativity) : cli_scope.
Notation "m ;; k" := (tbind m (fun _ => k))
  (at level 61, right associativity) : cli_scope.

(** A host call made from the command line. *)
Definition lift {A} (m : M A) : T A :=
  fun t => let (r, w') := m (host t) in (r, mkTerminal w' (screen t)).

(** [Console.print] *)
Definition console_print (o : output) : T unit :=
  fun t => (Ok tt, mkTerminal (host t) (screen t ++ [o])).

(** [Console.input]: prints the prompt, if any, then calls the built-in
    [input] without a prompt. *)
Definition console_input (prompt : string) : T string :=
  ((if prompt =? "" then tret tt else console_print (OutText prompt)) ;;
   lift (input ""))%cli.

(** [str(i)] for a non-negative [int] *)
Definition str_of_nat (i : nat) : string :=
  NilZero.string_of_uint (Nat.to_uint i).

(** [enumerate(l, start=1)] *)
Definition enumerate1 {A} (l : list A) : list (nat * A) :=
  combine (seq 1 (length l)) l.

Definition _render_artifacts : T (list string) :=
  (let arts := list_artifacts in
   let rows :=
     map (fun ia => [str_of_nat (fst ia); key (snd ia); description (snd ia)])
       (enumerate1 arts) in
   console_print
     (OutTable "Available Artifacts"
        [("#", "right"); ("Artifact", "left"); ("Description", "left")] rows) ;;
   tret (map key arts))%cli.

(** Code points below U+0100 that [str.isdigit] accepts: the ten decimal
    digits and the superscripts two, three and one. *)
Definition is_digit_char (c : ascii) : bool :=
  let n := code c in
  (((48 <=? n) && (n <=? 57)) || (n =? 178) || (n =? 179) || (n =? 185))%nat.

(** Code points below U+0100 that are decimal digits for [int]. *)
Definition is_decimal_char (c : ascii) : bool :=
  let n := code c in ((48 <=? n) && (n <=? 57))%nat.

Fixpoint all_chars (p : ascii -> bool) (s : string) : bool :=
  match s with
  | EmptyString => true
  | String c r => p c && all_chars p r
  end.

(** [str.isdigit]: false on the empty string. *)
Definition str_isdigit (s : string) : bool :=
  negb (s =? "") && all_chars is_digit_char s.

Fixpoint decimal_value (acc : N) (s : string) : N :=
  match s with
  | EmptyString => acc
  | String c r => decimal_value (acc * 10 + N.of_nat (code c - 48)) r
  end.

(** [int(s)] for a string without sign, white space or underscore, as
    [str.isdigit] leaves it.  A character that is not a decimal digit is a
    [ValueError], and so is a string of more than [max_str_digits] digits
    ([sys.get_int_max_str_digits()]; zero is no limit, and no limit applies
    up to 640 digits). *)
Definition py_int (max_str_digits : nat) (s : string) : T N :=
  if negb (s =? "") && all_chars is_decimal_char s then
    if ((640 <? String.length s) && (0 <? max_str_digits)
        && (max_str_digits <? String.length s))%nat
    then traise (ValueError "Exceeds the limit for integer string conversion")
    else tret (decimal_value 0 s)
  else traise (ValueError ("invalid literal for int() with base 10: '" ++ s ++ "'")%string).

Definition select_prompt : string := "Select artifact ([bold]number[/bold]): ".

(** The [while True] loop of [_pick_artifact_interactive] (lines 37-45).
    Every turn takes one line from the console or ends in [EOFError], so a
    console holding [fuel] lines allows at most [fuel] turns that go round
    again; the recursion is on that bound, and the turn after the last one
    is never taken. *)
Fixpoint pick_loop (max_str_digits : nat) (keys : list string) (fuel : nat)
  : T string :=
  (line <- console_input select_prompt ;;
   let choice := str_strip line in
   let again :=
     match fuel with
     | O => traise EOFError
     | S n => pick_loop max_str_digits keys n
     end in
   if negb (str_isdigit choice) then
     console_print (OutText "[red]Please enter a number.[/red]") ;;
     again
   else
     idx <- py_int max_str_digits choice ;;
     if ((1 <=? idx) && (idx <=? N.of_nat (length keys)))%N then
       tret (nth (N.to_nat idx - 1) keys "")
     else
       console_print (OutText "[red]Invalid selection.[/red]") ;;
       again)%cli.

Definition _pick_artifact_interactive (max_str_digits : nat) : T string :=
  (keys <- _render_artifacts ;;
   fun t => pick_loop max_str_digits keys (length (stdin (host t))) t)%cli.

(** The options of the [run] command once checked (lines 70-77): the
    artifact to run and the step to fail at, a [typer.BadParameter], or an
    exception out of the interactive choice. *)
Inductive checked (A : Type) :=
| Valid (a : A)
| BadParameter (msg : string)
| Uncaught (e : exn).
Arguments Valid {A} a.
Arguments BadParameter {A} msg.
Arguments Uncaught {A} e.

(** [', '.join(l)] *)
Definition join_comma (l : list string) : string := String.concat ", " l.

(** [x in l] for a list of strings *)
Definition mem (x : string) (l : list string) : bool :=
  existsb (String.eqb x) l.

Definition run_options (max_str_digits : nat)
    (artifact_opt fail_step : option string)
  : Terminal -> checked (string * option string) * Terminal :=
  fun t =>
    let '(picked, t1) :=
      match artifact_opt with
      | None =>
          match _pick_artifact_interactive max_str_digits t with
          | (Ok k, t') => (Valid k, t')
          | (Raise e, t') => (Uncaught e, t')
          end
      | Some k =>
          if negb (artifact_exists k)
          then (BadParameter ("Unknown artifact: " ++ k)%string, t)
          else (Valid k, t)
      end in
    match picked with
    | Valid k =>
        match fail_step with
        | Some f =>
            if negb (mem f PIPELINE_STEPS)
            then (BadParameter
                    ("--fail-step must be one of: "
                       ++ join_comma PIPELINE_STEPS)%string, t1)
            else (Valid (k, fail_step), t1)
        | None => (Valid (k, fail_step), t1)
        end
    | BadParameter msg => (BadParameter msg, t1)
    | Uncaught e => (Uncaught e, t1)
    end.

(** A console line that makes the loop go round again: not a number, or a
    number outside [1..len(keys)]. *)
Definition turned_down (max_str_digits : nat) (keys : list string)
    (line : string) : bool :=
  let choice := str_strip line in
  if str_isdigit choice then
    all_chars is_decimal_char choice
    && negb ((640 <? String.length choice) && (0 <? max_str_digits)
             && (max_str_digits <? String.length choice))%nat
    && negb ((1 <=? decimal_value 0 choice)
             && (decimal_value 0 choice <=? N.of_nat (length keys)))%N
  else true.

(** What the screen shows for a line that is turned down. *)
Definition turn_down_output (line : string) : list output :=
  [ OutText select_prompt;
    OutText (if str_isdigit (str_strip line)
             then "[red]Invalid selection.[/red]"
             else "[red]Please enter a number.[/red]") ].

(** A terminal for the worked examples. *)
Definition sample_terminal (lines : list string) : Terminal :=
  mkTerminal (sample_world lines) [].

(** The terminal after the console gave the lines [taken], leaving [rest],
    and the screen showed [outs]. *)
Definition after_lines (t : Terminal) (taken rest : list string)
    (outs : list output) : Terminal :=
  mkTerminal
    (mkWorld (clock (host t)) (reads (host t)) rest
       (trace (host t) ++ map (EvInput "") taken))
    (screen t ++ outs).

(** The key that a console line selects, if it selects one: a decimal
    number from 1 to [len(keys)], white space around it aside. *)
Definition chosen (max_str_digits : nat) (keys : list string) (line : string)
  : option string :=
  let choice := str_strip line in
  if str_isdigit choice
     && all_chars is_decimal_char choice
     && negb ((640 <? String.length choice) && (0 <? max_str_digits)
              && (max_str_digits <? String.length choice))%nat
     && ((1 <=? decimal_value 0 choice)
         && (decimal_value 0 choice <=? N.of_nat (length keys)))%N
  then Some (nth (N.to_nat (decimal_value 0 choice) - 1) keys "")
  else None.

(** The table that [_render_artifacts] prints. *)
Definition artifacts_table : output :=
  OutTable "Available Artifacts"
    [("#", "right"); ("Artifact", "left"); ("Description", "left")]
    [ ["1"; "api-service@1.0.0"; "API service container image"];
      ["2"; "web-frontend@2.3.1"; "Web frontend static bundle"];
      ["3"; "worker@0.9.5"; "Background worker binary"] ].

(** A console line on which [int] raises although [str.isdigit] let it
    through: a superscript digit, or more digits than the limit. *)
Definition breaks_int (max_str_digits : nat) (line : string) : bool :=
  let choice := str_strip line in
  str_isdigit choice
  && negb (all_chars is_decimal_char choice
           && negb ((640 <? String.length choice) && (0 <? max_str_digits)
                    && (max_str_digits <? String.length choice))%nat).

(** ** logging_conf.py *)

Module Logging.

Definition DEBUG : nat := 10.
Definition INFO : nat := 20.

Inductive sink :=
| Stream
| File (path : string).

(** A handler with its identity [hid], its level, the [run_id] of its
    [RunIdFilter] and its format. *)
Record Handler := mkHandler {
  hid : nat;
  target : sink;
  hlevel : nat;
  run_id_filter : option string;
  fmt : option (string * string)
}.

(** The root logger: its level, its handlers, and the identity the next
    new handler gets. *)
Record Root := mkRoot {
  level : nat;
  handlers : list Handler;
  next_hid : nat
}.

(** [Logger.removeHandler]: takes out the first entry that is [h]
    itself. *)
Fixpoint removeHandler (h : Handler) (hs : list Handler) : list Handler :=
  match hs with
  | [] => []
  | x :: r => if (hid x =? hid h)%nat then r else x :: removeHandler h r
  end.

(** [for h in list(root.handlers): root.removeHandler(h)] *)
Definition remove_all (hs : list Handler) : list Handler :=
  fold_left (fun cur h => removeHandler h cur) hs hs.

Definition log_format : string * string :=
  ("%(asctime)sZ %(levelname)s run_id=%(run_id)s %(name)s - %(message)s",
   "%Y-%m-%dT%H:%M:%S").

(** [setup_logging].  The file system is the caller's: [mkdir] and
    [open_log] stand for [log_dir.mkdir(parents=True, exist_ok=True)] and
    for the opening of the log file; each says whether the call succeeds
    ([false] when it raises [OSError]) and what file system it leaves
    either way; [join] is the [/] of paths.  The result is the path
    returned, or [None] for the [OSError], with the root logger and the
    file system as they are left. *)
Definition setup_logging {FS : Type}
    (mkdir open_log : string -> FS -> bool * FS)
    (join : string -> string -> string)
    (rid log_dir : string) (verbose : bool) (root : Root) (fs : FS)
  : option string * Root * FS :=
  let (made, fs1) := mkdir log_dir fs in
  if negb made then (None, root, fs1)
  else
    let log_file := join log_dir (rid ++ ".log")%string in
    let root1 := mkRoot DEBUG (remove_all (handlers root)) (next_hid root) in
    let ch := mkHandler (next_hid root1) Stream
                (if verbose then DEBUG else INFO) (Some rid)
                (Some log_format) in
    let root2 := mkRoot (level root1) (handlers root1 ++ [ch])
                   (S (next_hid root1)) in
    let (opened, fs2) := open_log log_file fs1 in
    if negb opened then (None, root2, fs2)
    else
      let fh := mkHandler (next_hid root2) (File log_file) DEBUG
                  (Some rid) (Some log_format) in
      (Some log_file,
       mkRoot (level root2) (handlers root2 ++ [fh]) (S (next_hid root2)),
       fs2).

(** [RunIdFilter.filter] on the [run_id] attribute of a record: the
    record's own when it has one, the filter's otherwise; the record always
    passes. *)
Definition filter_record (rid : string) (record_run_id : option string)
  : bool * option string :=
  match record_run_id with
  | Some r => (true, Some r)
  | None => (true, Some rid)
  end.

End Logging.
(** * Properties *)

(** ** The monad and the host calls *)

Lemma world_eta w : mkWorld (clock w) (reads w) (stdin w) (trace w) = w.
Proof. now destruct w. Qed.

Lemma clock_advance w n e : clock (advance w n e) = clock w.
Proof. reflexivity. Qed.

Lemma reads_advance w n e : reads (advance w n e) = reads w + n.
Proof. reflexivity. Qed.

Lemma stdin_advance w n e : stdin (advance w n e) = stdin w.
Proof. reflexivity. Qed.

Lemma trace_advance w n e : trace (advance w n e) = trace w ++ e.
Proof. reflexivity. Qed.

Lemma advance_0_nil w : advance w 0 [] = w.
Proof.
  unfold advance. rewrite Nat.add_0_r, app_nil_r. apply world_eta.
Qed.

Lemma advance_advance w n1 e1 n2 e2 :
  advance (advance w n1 e1) n2 e2 = advance w (n1 + n2) (e1 ++ e2).
Proof.
  unfold advance; simpl. now rewrite Nat.add_assoc, app_assoc.
Qed.

Lemma bind_now {B} (k : string -> M B) w :
  (t <- utc_now_iso ;; k t) w
  = k (clock w (reads w)) (advance w 1 [EvNow (clock w (reads w))]).
Proof.
  unfold bind, utc_now_iso, advance. now rewrite Nat.add_1_r.
Qed.

Lemma bind_log {B} lvl rid msg (k : M B) w :
  (logger_log lvl rid msg ;; k) w = k (advance w 0 [EvLog lvl rid msg]).
Proof.
  unfold bind, logger_log, emit, advance. now rewrite Nat.add_0_r.
Qed.

Lemma bind_ret {A B} (a : A) (k : A -> M B) w : (x <- ret a ;; k x) w = k a w.
Proof. reflexivity. Qed.

Lemma bind_raise {A B} e (k : A -> M B) w :
  (x <- raise e ;; k x) w = (Raise e, w).
Proof. reflexivity. Qed.

Lemma bind_assoc {A B C} (m : M A) (f : A -> M B) (g : B -> M C) w :
  (y <- (x <- m ;; f x) ;; g y) w = (x <- m ;; y <- f x ;; g y) w.
Proof.
  unfold bind. destruct (m w) as [[a|e] w']; reflexivity.
Qed.

Lemma bind_ext {A B} (m : M A) (f g : A -> M B) w :
  (forall a w', f a w' = g a w') -> (x <- m ;; f x) w = (x <- m ;; g x) w.
Proof.
  intros H. unfold bind. destruct (m w) as [[a|e] w']; auto.
Qed.

Lemma bind_same_cont {A B} (m1 m2 : M A) (f : A -> M B) w :
  m1 w = m2 w -> (x <- m1 ;; f x) w = (x <- m2 ;; f x) w.
Proof.
  intros H. unfold bind. now rewrite H.
Qed.

(** ** The clamp of line 55 *)

Lemma py_max_zero_not_nan d : is_nan (py_max float_zero d) = false.
Proof.
  unfold py_max, float_zero.
  destruct d as [s|s| |s m e]; try destruct s; reflexivity.
Qed.

Lemma py_max_zero_not_neg d : SFltb (py_max float_zero d) float_zero = false.
Proof.
  unfold py_max, float_zero. destruct d as [s|s| |s m e]; try destruct s; reflexivity.
Qed.

Lemma py_max_zero_neg d : SFltb d float_zero = true -> py_max float_zero d = float_zero.
Proof.
  unfold py_max, float_zero.
  destruct d as [s|s| |s m e]; try destruct s; simpl; try discriminate; reflexivity.
Qed.

Lemma timer_zero : timer_overflow float_zero = false.
Proof. reflexivity. Qed.

Lemma bind_sleep_clamped {B} d (k : M B) w :
  timer_overflow (py_max float_zero d) = false ->
  (time_sleep (py_max float_zero d) ;; k) w
  = k (advance w 0 [EvSleep (py_max float_zero d)]).
Proof.
  intros Hfit. unfold bind, time_sleep.
  rewrite py_max_zero_not_nan, Hfit, py_max_zero_not_neg.
  unfold emit, advance. now rewrite Nat.add_0_r.
Qed.

Lemma bind_sleep_overflow {B} d (k : M B) w :
  timer_overflow (py_max float_zero d) = true ->
  (time_sleep (py_max float_zero d) ;; k) w
  = (Raise OverflowError, w).
Proof.
  intros Hover. unfold bind, time_sleep.
  now rewrite py_max_zero_not_nan, Hover.
Qed.

Lemma sleep_negative_raises d w :
  SFltb d float_zero = true -> exists e, time_sleep d w = (Raise e, w).
Proof.
  intros H. unfold time_sleep. rewrite H.
  destruct (is_nan d); [eauto|]. destruct (timer_overflow d); eauto.
Qed.

#[local] Arguments String.append : simpl never.

(** ** Lists of steps *)

Lemma index_of_first (f : string) (pre post : list string) :
  ~ In f pre -> index_of f (pre ++ f :: post) = Some (length pre).
Proof.
  induction pre as [|y pre IH]; simpl; intros Hn.
  - now rewrite String.eqb_refl.
  - destruct (String.eqb_spec y f) as [->|_].
    + exfalso. apply Hn. now left.
    + rewrite IH; [reflexivity|]. intros H. apply Hn. now right.
Qed.

Lemma skipn_past (A : Type) (pre : list A) (x : A) (post : list A) :
  skipn (length pre + 1) (pre ++ x :: post) = post.
Proof.
  induction pre as [|y pre IH]; simpl; [reflexivity | exact IH].
Qed.

(** The first step at which the failure branch is taken, if any. *)
Lemma triggers_split (fs : option string) (l : list string) :
  (forall s, In s l -> triggers fs s = false)
  \/ exists f pre post,
       fs = Some f /\ f <> "" /\ l = pre ++ f :: post /\ ~ In f pre.
Proof.
  induction l as [|s l IH].
  - left. intros s [].
  - destruct (triggers fs s) eqn:Ht.
    + right. unfold triggers, truthy, eq_opt in Ht.
      destruct fs as [f|]; [|discriminate].
      apply andb_true_iff in Ht. destruct Ht as [Hf Hs].
      apply String.eqb_eq in Hs. subst s.
      exists f, [], l. repeat split; try tauto.
      intros ->. discriminate.
    + destruct IH as [IH | (f & pre & post & -> & Hne & -> & Hn)].
      * left. intros x [<-|Hx]; auto.
      * right. exists f, (s :: pre), post. repeat split; auto.
        intros [->|Hin]; [|tauto].
        unfold triggers, truthy, eq_opt in Ht.
        rewrite String.eqb_refl, andb_true_r in Ht.
        apply negb_false_iff, String.eqb_eq in Ht. tauto.
Qed.

Lemma triggers_first (f : string) (pre : list string) :
  ~ In f pre -> forall s, In s pre -> triggers (Some f) s = false.
Proof.
  intros Hn s Hs. unfold triggers, eq_opt.
  destruct (String.eqb_spec s f) as [->|_]; [tauto | apply andb_false_r].
Qed.

Lemma triggers_self (f : string) : f <> "" -> triggers (Some f) f = true.
Proof.
  intros H. unfold triggers, truthy, eq_opt.
  rewrite String.eqb_refl, andb_true_r.
  now apply negb_true_iff, String.eqb_neq.
Qed.

(** ** The loops in closed form *)

Lemma skip_remaining_spec (l : list string) : forall acc w,
  skip_remaining l acc w
  = (Ok (acc ++ skipped_results (clock w) (reads w) l),
     advance w (length l) (skipped_trace (clock w) (reads w) l)).
Proof.
  induction l as [|s l IH]; intros acc w; simpl.
  - unfold ret. now rewrite app_nil_r, advance_0_nil.
  - rewrite bind_now, IH, advance_advance. simpl.
    rewrite <- app_assoc, Nat.add_1_r. reflexivity.
Qed.

Lemma step_loop_cons rid steps step rest fs d acc ov :
  step_loop rid steps (step :: rest) fs d acc ov
  = (step_start <- utc_now_iso ;;
     logger_log INFO rid ("Step started: " ++ step)%string ;;
     time_sleep (py_max float_zero d) ;;
     if triggers fs step then
       step_end <- utc_now_iso ;;
       logger_log ERROR rid (failure_message step) ;;
       i <- list_index step steps ;;
       res <- skip_remaining (skipn (i + 1) steps)
                (acc ++ [mkStepResult step "failed" step_start step_end
                           (failure_message step)]) ;;
       ret (res, "failed")
     else
       step_end <- utc_now_iso ;;
       logger_log INFO rid ("Step finished: " ++ step ++ " (success)")%string ;;
       step_loop rid steps rest fs d
         (acc ++ [mkStepResult step "success" step_start step_end "OK"]) ov).
Proof. reflexivity. Qed.

Ltac tidy :=
  rewrite ?advance_advance, ?clock_advance, ?reads_advance;
  cbn [app length Nat.add Nat.mul success_results success_trace
       skipped_results skipped_trace failed_trace];
  rewrite <- ?app_assoc; cbn [app];
  rewrite ?Nat.add_0_r, ?Nat.add_1_r.

Ltac same_world := unfold advance; f_equal; lia.

Lemma step_loop_pass rid steps fs d (todo : list string) : forall acc ov w,
  timer_overflow (py_max float_zero d) = false ->
  (forall s, In s todo -> triggers fs s = false) ->
  step_loop rid steps todo fs d acc ov w
  = (Ok (acc ++ success_results (clock w) (reads w) todo, ov),
     advance w (2 * length todo)
       (success_trace rid (clock w) (reads w) (py_max float_zero d) todo)).
Proof.
  induction todo as [|s todo IH]; intros acc ov w Hfit Hno.
  - unfold ret. simpl. now rewrite app_nil_r, advance_0_nil.
  - rewrite step_loop_cons, bind_now, bind_log, bind_sleep_clamped by exact Hfit.
    rewrite (Hno s (or_introl eq_refl)).
    rewrite bind_now, bind_log, IH
      by (exact Hfit || (intros x Hx; apply Hno; now right)).
    tidy. replace (reads w + 2) with (S (S (reads w))) by lia.
    f_equal. same_world.
Qed.

Lemma step_loop_fail rid steps f d i (pre post : list string) acc ov w :
  timer_overflow (py_max float_zero d) = false ->
  f <> "" -> ~ In f pre -> index_of f steps = Some i ->
  step_loop rid steps (pre ++ f :: post) (Some f) d acc ov w
  = (Ok (acc ++ success_results (clock w) (reads w) pre
             ++ failed_result (clock w) (reads w + 2 * length pre) f
             :: skipped_results (clock w) (reads w + 2 * length pre + 2)
                  (skipn (i + 1) steps),
         "failed"),
     advance w (2 * length pre + 2 + length (skipn (i + 1) steps))
       (success_trace rid (clock w) (reads w) (py_max float_zero d) pre
          ++ failed_trace rid (clock w) (reads w + 2 * length pre)
               (py_max float_zero d) f
          ++ skipped_trace (clock w) (reads w + 2 * length pre + 2)
               (skipn (i + 1) steps))).
Proof.
  intros Hfit Hne Hn Hi. revert acc w.
  induction pre as [|s pre IH]; intros acc w; cbn [app];
    rewrite step_loop_cons, bind_now, bind_log, bind_sleep_clamped
      by exact Hfit.
  - rewrite (triggers_self f Hne), bind_now, bind_log.
    unfold list_index. rewrite Hi, bind_ret.
    unfold bind at 1. rewrite skip_remaining_spec. unfold ret.
    tidy. replace (reads w + 2) with (S (S (reads w))) by lia.
    unfold failed_result. reflexivity.
  - rewrite (triggers_first f (s :: pre) Hn s (or_introl eq_refl)).
    rewrite bind_now, bind_log, IH by (intros H; apply Hn; now right).
    tidy. replace (reads w + 2) with (S (S (reads w))) by lia.
    replace (S (S (reads w)) + (length pre + length pre))
      with (reads w + S (length pre + S (length pre))) by lia.
    f_equal. same_world.
Qed.

(** A delay the timer cannot hold stops the loop in its first turn, at
    [time.sleep]. *)
Lemma step_loop_overflow rid steps s rest fs d acc ov w :
  timer_overflow (py_max float_zero d) = true ->
  step_loop rid steps (s :: rest) fs d acc ov w
  = (Raise OverflowError,
     advance w 1
       [ EvNow (clock w (reads w));
         EvLog INFO rid ("Step started: " ++ s)%string ]).
Proof.
  intros Hover.
  rewrite step_loop_cons, bind_now, bind_log, bind_sleep_overflow by exact Hover.
  now rewrite advance_advance.
Qed.

Lemma execute_pass rid steps fs d w :
  timer_overflow (py_max float_zero d) = false ->
  (forall s, In s steps -> triggers fs s = false) ->
  execute rid steps fs d w
  = (Ok (success_results (clock w) (reads w) steps, "success"),
     advance w (2 * length steps)
       (success_trace rid (clock w) (reads w) (py_max float_zero d) steps)).
Proof.
  intros Hfit H. unfold execute. now rewrite step_loop_pass.
Qed.

Lemma execute_fail rid f d (pre post : list string) w :
  timer_overflow (py_max float_zero d) = false ->
  f <> "" -> ~ In f pre ->
  execute rid (pre ++ f :: post) (Some f) d w
  = (Ok (success_results (clock w) (reads w) pre
           ++ failed_result (clock w) (reads w + 2 * length pre) f
           :: skipped_results (clock w) (reads w + 2 * length pre + 2) post,
         "failed"),
     advance w (2 * length pre + 2 + length post)
       (success_trace rid (clock w) (reads w) (py_max float_zero d) pre
          ++ failed_trace rid (clock w) (reads w + 2 * length pre)
               (py_max float_zero d) f
          ++ skipped_trace (clock w) (reads w + 2 * length pre + 2) post)).
Proof.
  intros Hfit Hne Hn. unfold execute.
  rewrite (step_loop_fail rid _ f d (length pre) pre post [] "success" w
             Hfit Hne Hn)
    by now apply index_of_first.
  now rewrite skipn_past.
Qed.


(** *** Facts about the closed forms *)

Lemma names_success ck k l : names (success_results ck k l) = l.
Proof.
  revert k. induction l as [|s l IH]; intros k; simpl; [|rewrite IH]; reflexivity.
Qed.

Lemma names_skipped ck k l : names (skipped_results ck k l) = l.
Proof.
  revert k. induction l as [|s l IH]; intros k; simpl; [|rewrite IH]; reflexivity.
Qed.

Lemma statuses_success ck k l :
  statuses (success_results ck k l) = repeat "success" (length l).
Proof.
  revert k. induction l as [|s l IH]; intros k; simpl; [|rewrite IH]; reflexivity.
Qed.

Lemma statuses_skipped ck k l :
  statuses (skipped_results ck k l) = repeat "skipped" (length l).
Proof.
  revert k. induction l as [|s l IH]; intros k; simpl; [|rewrite IH]; reflexivity.
Qed.

Lemma length_success ck k l : length (success_results ck k l) = length l.
Proof.
  rewrite <- (names_success ck k l) at 2. unfold names. now rewrite length_map.
Qed.

Lemma length_skipped ck k l : length (skipped_results ck k l) = length l.
Proof.
  rewrite <- (names_skipped ck k l) at 2. unfold names. now rewrite length_map.
Qed.

Lemma success_all ck k l :
  Forall (fun r => status r = "success") (success_results ck k l).
Proof.
  revert k. induction l as [|s l IH]; intros k; simpl; constructor; auto.
Qed.


Lemma no_input_success rid ck k d l :
  filter is_input (success_trace rid ck k d l) = [].
Proof.
  revert k. induction l as [|s l IH]; intros k; simpl; auto.
Qed.

Lemma no_input_skipped ck k l : filter is_input (skipped_trace ck k l) = [].
Proof.
  revert k. induction l as [|s l IH]; intros k; simpl; auto.
Qed.

(** *** When the loop returns, and what it returns *)

Lemma execute_outcome rid steps fs d w :
  timer_overflow (py_max float_zero d) = false ->
  exists rs ov w',
    execute rid steps fs d w = (Ok (rs, ov), w') /\
    loop_outcome rid steps fs d w rs ov w'.
Proof.
  intros Hfit.
  destruct (triggers_split fs steps) as [H | (f & pre & post & -> & Hne & -> & Hn)].
  - do 3 eexists. split; [now apply execute_pass | now constructor].
  - do 3 eexists. split; [now apply execute_fail | now econstructor].
Qed.

Lemma execute_overflow rid s rest fs d w :
  timer_overflow (py_max float_zero d) = true ->
  execute rid (s :: rest) fs d w
  = (Raise OverflowError,
     advance w 1
       [ EvNow (clock w (reads w));
         EvLog INFO rid ("Step started: " ++ s)%string ]).
Proof.
  intros Hover. unfold execute. now apply step_loop_overflow.
Qed.

(** Whatever the delay, a loop that returns has one of the two
    outcomes. *)
Lemma execute_inv rid steps fs d w rs ov w' :
  execute rid steps fs d w = (Ok (rs, ov), w') ->
  loop_outcome rid steps fs d w rs ov w'.
Proof.
  intros He. destruct (timer_overflow (py_max float_zero d)) eqn:Hfit.
  - destruct steps as [|s rest].
    + injection He as <- <- <-.
      rewrite <- (advance_0_nil w) at 2. apply (loop_passed rid [] fs d w).
      intros s [].
    + rewrite execute_overflow in He by exact Hfit. discriminate He.
  - destruct (execute_outcome rid steps fs d w Hfit) as (rs0 & ov0 & w0 & He0 & Ho).
    rewrite He in He0. injection He0 as <- <- <-. exact Ho.
Qed.


Lemma outcome_names rid steps fs d w rs ov w' :
  loop_outcome rid steps fs d w rs ov w' -> names rs = steps.
Proof.
  intros [H | f pre post -> Hne -> Hn]; unfold names.
  - apply names_success.
  - rewrite map_app. cbn [map failed_result name].
    fold (names (success_results (clock w) (reads w) pre)).
    fold (names (skipped_results (clock w) (reads w + 2 * length pre + 2) post)).
    now rewrite names_success, names_skipped.
Qed.

Lemma outcome_length rid steps fs d w rs ov w' :
  loop_outcome rid steps fs d w rs ov w' -> length rs = length steps.
Proof.
  intros H. apply outcome_names in H. rewrite <- H.
  unfold names. now rewrite length_map.
Qed.

Lemma outcome_status rid steps fs d w rs ov w' :
  loop_outcome rid steps fs d w rs ov w' ->
  (ov = "success" /\ Forall (fun r => status r = "success") rs)
  \/ (ov = "failed" /\ Exists (fun r => status r = "failed") rs).
Proof.
  intros [H | f pre post -> Hne -> Hn].
  - left. split; [reflexivity | apply success_all].
  - right. split; [reflexivity|].
    apply Exists_app. right. now constructor.
Qed.

Lemma outcome_world rid steps fs d w rs ov w' :
  loop_outcome rid steps fs d w rs ov w' ->
  clock w' = clock w /\ stdin w' = stdin w /\
  filter is_input (trace w') = filter is_input (trace w).
Proof.
  intros [H | f pre post -> Hne -> Hn];
    rewrite clock_advance, stdin_advance, trace_advance, !filter_app;
    rewrite ?no_input_success, ?no_input_skipped; cbn [failed_trace filter is_input app];
    now rewrite ?app_nil_r.
Qed.

(** ** The artifact check and the approval gate *)

Lemma check_artifact_known rid a w :
  artifact_exists a = true -> check_artifact rid a w = (Ok tt, w).
Proof.
  intros H. unfold check_artifact. now rewrite H.
Qed.

Lemma check_artifact_unknown rid a w :
  artifact_exists a = false ->
  check_artifact rid a w
  = (Raise (ArtifactNotFoundError ("Unknown artifact: " ++ a)%string),
     advance w 0 [EvLog ERROR rid ("Unknown artifact: " ++ a)%string]).
Proof.
  intros H. unfold check_artifact. rewrite H. cbn [negb].
  now rewrite bind_log.
Qed.

Lemma gate_off rid ay w : approval_gate rid false ay w = (Ok true, w).
Proof. reflexivity. Qed.

Lemma gate_auto rid w :
  approval_gate rid true true w
  = (Ok true, advance w 0 [EvLog INFO rid "Waiting for manual approval..."]).
Proof.
  unfold approval_gate, require_approval. now rewrite bind_log.
Qed.

(** The world after the console answered [line] to the prompt. *)
Lemma gate_asked rid line rest w :
  stdin w = line :: rest ->
  approval_gate rid true false w
  = let w2 := mkWorld (clock w) (reads w) rest
                (trace w ++ [ EvLog INFO rid "Waiting for manual approval...";
                              EvInput default_prompt line ]) in
    if accepted (str_lower (str_strip line)) then (Ok true, w2)
    else (Raise (ApprovalRejectedError "Approval rejected by user."),
          advance w2 0 [EvLog WARNING rid "Approval rejected."]).
Proof.
  intros Hin. unfold approval_gate, require_approval.
  rewrite bind_log, bind_assoc.
  unfold bind at 1. unfold input. cbn [stdin advance]. rewrite Hin.
  rewrite bind_ret, clock_advance, reads_advance, trace_advance.
  rewrite Nat.add_0_r, <- app_assoc. cbn [app].
  destruct (accepted (str_lower (str_strip line))); cbn [negb].
  - reflexivity.
  - now rewrite bind_log.
Qed.

Lemma gate_eof rid w :
  stdin w = [] ->
  approval_gate rid true false w
  = (Raise EOFError, advance w 0 [EvLog INFO rid "Waiting for manual approval..."]).
Proof.
  intros Hin. unfold approval_gate, require_approval.
  rewrite bind_log, bind_assoc.
  unfold bind at 1. unfold input. cbn [stdin advance]. now rewrite Hin.
Qed.

(** Whatever the gate returns is [True], and the gate neither reads the
    clock nor sleeps. *)
Lemma gate_passes rid rm ay w b w1 :
  approval_gate rid rm ay w = (Ok b, w1) ->
  b = true /\ clock w1 = clock w /\ reads w1 = reads w.
Proof.
  destruct rm; [destruct ay|].
  - rewrite gate_auto. intros [= <- <-]. cbn. auto with arith.
  - destruct (stdin w) as [|line rest] eqn:Hin.
    + now rewrite gate_eof.
    + rewrite (gate_asked rid line rest w Hin). cbv zeta.
      destruct (accepted _); [|discriminate].
      intros [= <- <-]. cbn. auto.
  - rewrite gate_off. intros [= <- <-]. auto.
Qed.

Lemma gate_auto_quiet rid rm w b w1 :
  approval_gate rid rm true w = (Ok b, w1) ->
  stdin w1 = stdin w /\ filter is_input (trace w1) = filter is_input (trace w).
Proof.
  destruct rm.
  - rewrite gate_auto. intros [= <- <-].
    rewrite stdin_advance, trace_advance, filter_app. cbn.
    now rewrite app_nil_r.
  - rewrite gate_off. intros [= <- <-]. auto.
Qed.

(** ** [run_pipeline] as a whole *)

Lemma run_pipeline_over_eq steps rid a rm ay fs d w :
  run_pipeline_over steps rid a rm ay fs d w
  = (check_artifact rid a ;;
     is_approved <- approval_gate rid rm ay ;;
     out <- execute rid steps fs d ;;
     finished <- utc_now_iso ;;
     logger_log INFO rid ("Run finished. status=" ++ snd out)%string ;;
     ret (mkRunResult rid a is_approved (snd out) (clock w (reads w))
            finished (fst out)))
      (run_started rid a w).
Proof.
  unfold run_pipeline_over. rewrite bind_now, bind_log.
  now rewrite advance_advance.
Qed.

Lemma run_unknown_artifact steps rid a rm ay fs d w :
  artifact_exists a = false ->
  run_pipeline_over steps rid a rm ay fs d w
  = (Raise (ArtifactNotFoundError ("Unknown artifact: " ++ a)%string),
     advance (run_started rid a w) 0
       [EvLog ERROR rid ("Unknown artifact: " ++ a)%string]).
Proof.
  intros H. rewrite run_pipeline_over_eq.
  unfold bind at 1. now rewrite check_artifact_unknown.
Qed.

(** Every returned [RunResult] comes out of a passed gate followed by the
    step loop. *)
Lemma run_returns_inv steps rid a rm ay fs d w r w' :
  run_pipeline_over steps rid a rm ay fs d w = (Ok r, w') ->
  artifact_exists a = true /\
  exists w1 rs ov w2,
    approval_gate rid rm ay (run_started rid a w) = (Ok true, w1) /\
    execute rid steps fs d w1 = (Ok (rs, ov), w2) /\
    loop_outcome rid steps fs d w1 rs ov w2 /\
    r = mkRunResult rid a true ov (clock w (reads w)) (clock w2 (reads w2)) rs /\
    w' = run_finished rid ov w2.
Proof.
  rewrite run_pipeline_over_eq.
  destruct (artifact_exists a) eqn:Ha.
  2:{ unfold bind at 1. now rewrite check_artifact_unknown. }
  unfold bind at 1. rewrite check_artifact_known by assumption.
  unfold bind at 1.
  destruct (approval_gate rid rm ay (run_started rid a w)) as [[b|e] w1] eqn:Hg;
    [|discriminate].
  destruct (gate_passes _ _ _ _ _ _ Hg) as (-> & _ & _).
  unfold bind at 1.
  destruct (execute rid steps fs d w1) as [[[rs ov]|e] w2] eqn:He;
    [|discriminate].
  pose proof (execute_inv _ _ _ _ _ _ _ _ He) as Ho.
  rewrite bind_now, bind_log. unfold ret. cbn [fst snd].
  rewrite advance_advance. cbn [Nat.add app].
  intros [= <- <-]. split; [reflexivity|].
  now exists w1, rs, ov, w2.
Qed.


(** With a known artifact, a gate that passes, at least one step and a
    delay the timer cannot hold, the run ends in the [OverflowError] of the
    first step's [time.sleep]. *)
Lemma run_overflows s rest rid a rm ay fs d w w1 :
  timer_overflow (py_max float_zero d) = true ->
  artifact_exists a = true ->
  approval_gate rid rm ay (run_started rid a w) = (Ok true, w1) ->
  run_pipeline_over (s :: rest) rid a rm ay fs d w
  = (Raise OverflowError,
     advance w1 1
       [ EvNow (clock w1 (reads w1));
         EvLog INFO rid ("Step started: " ++ s)%string ]).
Proof.
  intros Hover Ha Hg. rewrite run_pipeline_over_eq.
  unfold bind at 1. rewrite check_artifact_known by assumption.
  unfold bind at 1. rewrite Hg.
  unfold bind at 1. now rewrite execute_overflow.
Qed.

(** A run over no steps at all returns whatever the delay. *)
Lemma run_no_steps rid a rm ay fs d w w1 :
  artifact_exists a = true ->
  approval_gate rid rm ay (run_started rid a w) = (Ok true, w1) ->
  run_pipeline_over [] rid a rm ay fs d w
  = (Ok (mkRunResult rid a true "success" (clock w (reads w))
           (clock w1 (reads w1)) []),
     run_finished rid "success" w1).
Proof.
  intros Ha Hg. rewrite run_pipeline_over_eq.
  unfold bind at 1. rewrite check_artifact_known by assumption.
  unfold bind at 1. rewrite Hg.
  unfold bind at 1. unfold execute. cbn [step_loop]. unfold ret at 1.
  rewrite bind_now, bind_log. unfold ret. cbn [fst snd].
  now rewrite advance_advance.
Qed.

(** What the gate leaves on the console and in the trace, whatever it
    ends in. *)
Lemma gate_never_sleeps rid rm ay w :
  filter is_sleep (trace (snd (approval_gate rid rm ay w)))
  = filter is_sleep (trace w).
Proof.
  destruct rm; [destruct ay|].
  - rewrite gate_auto. cbn [snd]. rewrite trace_advance, filter_app. cbn.
    now rewrite app_nil_r.
  - destruct (stdin w) as [|line rest] eqn:Hin.
    + rewrite gate_eof by exact Hin. cbn [snd].
      rewrite trace_advance, filter_app. cbn. now rewrite app_nil_r.
    + rewrite (gate_asked rid line rest w Hin). cbv zeta.
      destruct (accepted _); cbn [snd trace]; rewrite ?trace_advance;
        cbn [trace]; rewrite !filter_app; cbn; now rewrite ?app_nil_r.
  - now rewrite gate_off.
Qed.

Lemma first_split_unique (f : string) (pre pre' post post' : list string) :
  pre ++ f :: post = pre' ++ f :: post' -> ~ In f pre -> ~ In f pre' ->
  pre = pre' /\ post = post'.
Proof.
  revert pre'. induction pre as [|x pre IH]; intros [|y pre'] H Hn Hn'; simpl in *.
  - now injection H as <-.
  - injection H as <- _. tauto.
  - injection H as -> _. tauto.
  - injection H as <- H. destruct (IH pre' H) as [-> ->]; tauto.
Qed.


(** The loop sees [simulate_seconds] only through the clamp. *)
Lemma step_loop_delay_ext rid steps fs d1 d2 (todo : list string) :
  py_max float_zero d1 = py_max float_zero d2 ->
  forall acc ov w,
    step_loop rid steps todo fs d1 acc ov w
    = step_loop rid steps todo fs d2 acc ov w.
Proof.
  intros Hd. induction todo as [|s todo IH]; intros acc ov w; [reflexivity|].
  rewrite !step_loop_cons, Hd.
  apply bind_ext; intros t0 w0.
  apply bind_ext; intros _ w1.
  apply bind_ext; intros _ w2.
  destruct (triggers fs s); [reflexivity|].
  apply bind_ext; intros t1 w3.
  apply bind_ext; intros _ w4.
  apply IH.
Qed.

Lemma execute_delay_ext rid step_seq fs d1 d2 w :
  py_max float_zero d1 = py_max float_zero d2 ->
  execute rid step_seq fs d1 w = execute rid step_seq fs d2 w.
Proof.
  intros Hd. unfold execute. now apply step_loop_delay_ext.
Qed.

Lemma run_delay_ext step_seq rid a rm ay fs d1 d2 w :
  py_max float_zero d1 = py_max float_zero d2 ->
  run_pipeline_over step_seq rid a rm ay fs d1 w
  = run_pipeline_over step_seq rid a rm ay fs d2 w.
Proof.
  intros Hd. rewrite !run_pipeline_over_eq.
  apply bind_ext; intros _ w0.
  apply bind_ext; intros b w1.
  apply bind_same_cont, execute_delay_ext, Hd.
Qed.

(** * The properties of the run *)

(** ** Failure propagation *)

Lemma pipeline_steps_named f : In f PIPELINE_STEPS -> f <> "".
Proof.
  intros [<-|[<-|[<-|[<-|[]]]]]; discriminate.
Qed.







(** ** Errors raised before the run starts *)

(** C3.  For an artifact key that is not in the registry, [run_pipeline]
    raises [ArtifactNotFoundError]: no [RunResult] is returned, and all the
    run has done by then is read the clock once and log two lines, so the
    console was not asked for approval and no step ran. *)
Theorem unknown_artifact_raises_first step_seq rid a rm ay fs d w :
  artifact_exists a = false ->
  run_pipeline_over step_seq rid a rm ay fs d w
  = (Raise (ArtifactNotFoundError ("Unknown artifact: " ++ a)%string),
     mkWorld (clock w) (reads w + 1) (stdin w)
       (trace w ++
          [ EvNow (clock w (reads w));
            EvLog INFO rid ("Run started. artifact=" ++ a)%string;
            EvLog ERROR rid ("Unknown artifact: " ++ a)%string ])).
Proof.
  intros Ha. rewrite run_unknown_artifact by assumption.
  unfold run_started. rewrite advance_advance.
  unfold advance. now rewrite Nat.add_0_r.
Qed.

Lemma unknown_artifact_raises_first_witness :
  run_pipeline "r1" "unknown@0.0.0" true false None float_zero
    (sample_world ["y"])
  = (Raise (ArtifactNotFoundError "Unknown artifact: unknown@0.0.0"),
     mkWorld sample_clock 1 ["y"]
       [ EvNow "t";
         EvLog INFO "r1" "Run started. artifact=unknown@0.0.0";
         EvLog ERROR "r1" "Unknown artifact: unknown@0.0.0" ]).
Proof.
  apply (unknown_artifact_raises_first PIPELINE_STEPS "r1" "unknown@0.0.0"
           true false None float_zero (sample_world ["y"])).
  reflexivity.
Defined.

(** C4.  When manual approval is required and [require_approval] returns
    [False], [run_pipeline] raises [ApprovalRejectedError]: no [RunResult]
    is returned, and by then the run has read the clock once, logged,
    read one console line and logged the rejection, so no step ran and no
    [StepResult] was built. *)
Theorem rejected_approval_raises_before_steps
    step_seq rid a ay fs d w w2 :
  artifact_exists a = true ->
  require_approval default_prompt ay
    (advance (run_started rid a w) 0
       [EvLog INFO rid "Waiting for manual approval..."])
  = (Ok false, w2) ->
  exists line rest,
    ay = false /\ stdin w = line :: rest /\
    run_pipeline_over step_seq rid a true ay fs d w
    = (Raise (ApprovalRejectedError "Approval rejected by user."),
       mkWorld (clock w) (reads w + 1) rest
         (trace w ++
            [ EvNow (clock w (reads w));
              EvLog INFO rid ("Run started. artifact=" ++ a)%string;
              EvLog INFO rid "Waiting for manual approval...";
              EvInput default_prompt line;
              EvLog WARNING rid "Approval rejected." ])).
Proof.
  intros Ha Hreq.
  destruct ay; [discriminate Hreq|].
  unfold require_approval in Hreq. unfold bind, input in Hreq.
  rewrite stdin_advance in Hreq. unfold run_started in Hreq.
  rewrite stdin_advance in Hreq.
  destruct (stdin w) as [|line rest] eqn:Hin; [discriminate Hreq|].
  unfold ret in Hreq. injection Hreq as Hacc _.
  exists line, rest. repeat split.
  rewrite run_pipeline_over_eq.
  unfold bind at 1. rewrite check_artifact_known by assumption.
  unfold bind at 1.
  rewrite (gate_asked rid line rest (run_started rid a w)) by exact Hin.
  cbv zeta. rewrite Hacc. unfold run_started, advance. cbn.
  now rewrite Nat.add_0_r, <- !app_assoc.
Qed.

Lemma rejected_approval_raises_before_steps_witness :
  exists line rest,
    false = false /\ stdin (sample_world [" No "; "y"]) = line :: rest /\
    run_pipeline "r1" "api-service@1.0.0" true false None float_zero
      (sample_world [" No "; "y"])
    = (Raise (ApprovalRejectedError "Approval rejected by user."),
       mkWorld sample_clock (0 + 1) rest
         ([] ++
            [ EvNow "t";
              EvLog INFO "r1" "Run started. artifact=api-service@1.0.0";
              EvLog INFO "r1" "Waiting for manual approval...";
              EvInput default_prompt line;
              EvLog WARNING "r1" "Approval rejected." ])).
Proof.
  refine (rejected_approval_raises_before_steps PIPELINE_STEPS "r1"
            "api-service@1.0.0" false None float_zero
            (sample_world [" No "; "y"]) _ _ _).
  - reflexivity.
  - reflexivity.
Defined.

(** ** The approval gate with [auto_yes] *)

Lemma execute_console rid steps fs d w :
  stdin (snd (execute rid steps fs d w)) = stdin w /\
  filter is_input (trace (snd (execute rid steps fs d w)))
  = filter is_input (trace w).
Proof.
  destruct (timer_overflow (py_max float_zero d)) eqn:Hfit.
  - destruct steps as [|s rest]; [now split|].
    rewrite execute_overflow by exact Hfit. cbn [snd].
    rewrite stdin_advance, trace_advance, filter_app. cbn.
    now rewrite app_nil_r.
  - destruct (execute_outcome rid steps fs d w Hfit) as (rs & ov & w' & -> & Ho).
    cbn [snd]. destruct (outcome_world _ _ _ _ _ _ _ _ Ho) as (_ & Hin & Htr).
    now split.
Qed.

(** The run once the gate has passed, in terms of the loop. *)
Lemma run_after_gate steps rid a rm ay fs d w w1 :
  artifact_exists a = true ->
  approval_gate rid rm ay (run_started rid a w) = (Ok true, w1) ->
  run_pipeline_over steps rid a rm ay fs d w
  = match execute rid steps fs d w1 with
    | (Ok out, w2) =>
        (Ok (mkRunResult rid a true (snd out) (clock w (reads w))
               (clock w2 (reads w2)) (fst out)),
         run_finished rid (snd out) w2)
    | (Raise e, w2) => (Raise e, w2)
    end.
Proof.
  intros Ha Hg. rewrite run_pipeline_over_eq.
  unfold bind at 1. rewrite check_artifact_known by assumption.
  unfold bind at 1. rewrite Hg. unfold bind at 1.
  destruct (execute rid steps fs d w1) as [[out|e] w2]; [|reflexivity].
  rewrite bind_now, bind_log. unfold ret. now rewrite advance_advance.
Qed.

(** What a run leaves on the console once the gate has passed. *)
Lemma run_console_after_gate steps rid a rm ay fs d w w1 :
  artifact_exists a = true ->
  approval_gate rid rm ay (run_started rid a w) = (Ok true, w1) ->
  stdin (snd (run_pipeline_over steps rid a rm ay fs d w)) = stdin w1 /\
  filter is_input (trace (snd (run_pipeline_over steps rid a rm ay fs d w)))
  = filter is_input (trace w1).
Proof.
  intros Ha Hg. rewrite (run_after_gate steps rid a rm ay fs d w w1 Ha Hg).
  destruct (execute_console rid steps fs d w1) as (Hin & Htr).
  destruct (execute rid steps fs d w1) as [[out|e] w2]; cbn [snd] in *.
  - unfold run_finished.
    rewrite stdin_advance, trace_advance, filter_app, Hin, Htr.
    cbn. now rewrite app_nil_r.
  - now split.
Qed.



(** ** What every returned [RunResult] satisfies *)

(** C6.  Every [RunResult] that [run_pipeline] returns has exactly one
    step result per step of the sequence, named after the steps in order;
    when the run fails at a step, the steps after it are present with status
    ["skipped"]. *)
Theorem returned_steps_cover_sequence step_seq rid a rm ay fs d w r w' :
  run_pipeline_over step_seq rid a rm ay fs d w = (Ok r, w') ->
  length (steps r) = length step_seq /\
  names (steps r) = step_seq /\
  (forall f pre post,
     fs = Some f -> f <> "" -> step_seq = pre ++ f :: post -> ~ In f pre ->
     statuses (skipn (S (length pre)) (steps r))
     = repeat "skipped" (length post)).
Proof.
  intros Hrun.
  destruct (run_returns_inv _ _ _ _ _ _ _ _ _ _ Hrun)
    as (_ & w1 & rs & ov & w2 & _ & _ & Ho & -> & _).
  cbn [steps].
  split; [exact (outcome_length _ _ _ _ _ _ _ _ Ho)|].
  split; [exact (outcome_names _ _ _ _ _ _ _ _ Ho)|].
  intros f pre post -> Hne -> Hn.
  destruct Ho as [Hno | f' pre' post' [= <-] _ Hs Hn'].
  - pose proof (triggers_self f Hne) as Ht.
    rewrite Hno in Ht; [discriminate Ht|].
    apply in_or_app. right. now left.
  - destruct (first_split_unique f pre pre' post post' Hs Hn Hn') as [<- <-].
    replace (S (length pre))
      with (length (success_results (clock w1) (reads w1) pre) + 1)
      by (rewrite length_success; lia).
    rewrite skipn_app, skipn_all2 by lia. cbn [app].
    replace (length (success_results (clock w1) (reads w1) pre) + 1
             - length (success_results (clock w1) (reads w1) pre)) with 1 by lia.
    cbn [skipn]. apply statuses_skipped.
Qed.

Lemma returned_steps_cover_sequence_witness :
  exists r w',
    run_pipeline "r1" "worker@0.9.5" false false (Some "build") float_zero
      (sample_world [])
    = (Ok r, w') /\
    length (steps r) = 4 /\
    names (steps r) = ["build"; "test"; "package"; "deploy"] /\
    statuses (skipn 1 (steps r)) = ["skipped"; "skipped"; "skipped"].
Proof.
  destruct (run_pipeline "r1" "worker@0.9.5" false false (Some "build")
              float_zero (sample_world [])) as [[r|e] w'] eqn:Hrun.
  - exists r, w'. split; [reflexivity|].
    destruct (returned_steps_cover_sequence _ _ _ _ _ _ _ _ _ _ Hrun)
      as (Hlen & Hnames & Hskip).
    split; [exact Hlen|]. split; [exact Hnames|].
    apply (Hskip "build" [] ["test"; "package"; "deploy"]).
    + reflexivity.
    + discriminate.
    + reflexivity.
    + simpl. tauto.
  - vm_compute in Hrun. discriminate Hrun.
Defined.

(** C7.  In every [RunResult] that [run_pipeline] returns, the status is
    ["failed"] exactly when some step result has status ["failed"], and it
    is ["success"] otherwise. *)
Theorem run_status_failed_iff_step_failed step_seq rid a rm ay fs d w r w' :
  run_pipeline_over step_seq rid a rm ay fs d w = (Ok r, w') ->
  (run_status r = "failed"
   <-> Exists (fun s => status s = "failed") (steps r)) /\
  (run_status r <> "failed" -> run_status r = "success").
Proof.
  intros Hrun.
  destruct (run_returns_inv _ _ _ _ _ _ _ _ _ _ Hrun)
    as (_ & w1 & rs & ov & w2 & _ & _ & Ho & -> & _).
  cbn [steps run_status].
  destruct (outcome_status _ _ _ _ _ _ _ _ Ho) as [[-> Hall] | [-> Hex]].
  - split; [|reflexivity]. split; [discriminate|].
    intros Hex. apply Exists_exists in Hex. destruct Hex as (s & Hs & Hf).
    rewrite Forall_forall in Hall. rewrite (Hall s Hs) in Hf. discriminate Hf.
  - split; [tauto|]. intros H. now destruct H.
Qed.

Lemma run_status_failed_iff_step_failed_witness :
  exists r w',
    run_pipeline "r1" "worker@0.9.5" false false (Some "deploy") float_zero
      (sample_world [])
    = (Ok r, w') /\
    (run_status r = "failed"
     <-> Exists (fun s => status s = "failed") (steps r)) /\
    (run_status r <> "failed" -> run_status r = "success").
Proof.
  destruct (run_pipeline "r1" "worker@0.9.5" false false (Some "deploy")
              float_zero (sample_world [])) as [[r|e] w'] eqn:Hrun.
  - exists r, w'. split; [reflexivity|].
    exact (run_status_failed_iff_step_failed _ _ _ _ _ _ _ _ _ _ Hrun).
  - vm_compute in Hrun. discriminate Hrun.
Defined.

(** C10.  Every [RunResult] that [run_pipeline] returns has
    [approved = True] and a status that is ["success"] or ["failed"], never
    ["rejected"]. *)
Theorem returned_run_is_approved step_seq rid a rm ay fs d w r w' :
  run_pipeline_over step_seq rid a rm ay fs d w = (Ok r, w') ->
  approved r = true /\
  (run_status r = "success" \/ run_status r = "failed") /\
  run_status r <> "rejected".
Proof.
  intros Hrun.
  destruct (run_returns_inv _ _ _ _ _ _ _ _ _ _ Hrun)
    as (_ & w1 & rs & ov & w2 & _ & _ & Ho & -> & _).
  cbn [approved run_status]. split; [reflexivity|].
  destruct (outcome_status _ _ _ _ _ _ _ _ Ho) as [[-> _] | [-> _]];
    (split; [tauto | discriminate]).
Qed.

Lemma returned_run_is_approved_witness :
  exists r w',
    run_pipeline "r1" "web-frontend@2.3.1" true false (Some "test") float_zero
      (sample_world ["  OUI "])
    = (Ok r, w') /\
    approved r = true /\
    (run_status r = "success" \/ run_status r = "failed") /\
    run_status r <> "rejected".
Proof.
  destruct (run_pipeline "r1" "web-frontend@2.3.1" true false (Some "test")
              float_zero (sample_world ["  OUI "])) as [[r|e] w'] eqn:Hrun.
  - exists r, w'. split; [reflexivity|].
    exact (returned_run_is_approved _ _ _ _ _ _ _ _ _ _ Hrun).
  - vm_compute in Hrun. discriminate Hrun.
Defined.

(** ** The records of a failed run *)



(** ** The delay *)

(** C9.  A negative [simulate_seconds] is clamped to zero before it
    reaches [time.sleep]: the loop returns, and both the loop and the whole
    run behave exactly as with a delay of zero. *)
Theorem negative_delay_is_zero_delay step_seq rid a rm ay fs d w :
  SFltb d float_zero = true ->
  py_max float_zero d = float_zero /\
  (exists rs ov w', execute rid step_seq fs d w = (Ok (rs, ov), w')) /\
  execute rid step_seq fs d w = execute rid step_seq fs float_zero w /\
  run_pipeline_over step_seq rid a rm ay fs d w
  = run_pipeline_over step_seq rid a rm ay fs float_zero w.
Proof.
  intros Hneg. pose proof (py_max_zero_neg d Hneg) as Hclamp.
  assert (Hd : py_max float_zero d = py_max float_zero float_zero)
    by (rewrite Hclamp; reflexivity).
  split; [exact Hclamp|]. split; [|split].
  - assert (Hfit : timer_overflow (py_max float_zero d) = false)
      by (rewrite Hclamp; apply timer_zero).
    destruct (execute_outcome rid step_seq fs d w Hfit) as (rs & ov & w' & He & _).
    eauto.
  - now apply execute_delay_ext.
  - now apply run_delay_ext.
Qed.

Lemma negative_delay_is_zero_delay_witness :
  py_max float_zero (S754_finite true 3 (-1)) = float_zero /\
  (exists rs ov w',
     execute "r1" PIPELINE_STEPS None (S754_finite true 3 (-1)) (sample_world [])
     = (Ok (rs, ov), w')) /\
  execute "r1" PIPELINE_STEPS None (S754_finite true 3 (-1)) (sample_world [])
  = execute "r1" PIPELINE_STEPS None float_zero (sample_world []) /\
  run_pipeline "r1" "worker@0.9.5" false false None (S754_finite true 3 (-1))
    (sample_world [])
  = run_pipeline "r1" "worker@0.9.5" false false None float_zero
      (sample_world []).
Proof.
  apply (negative_delay_is_zero_delay PIPELINE_STEPS "r1" "worker@0.9.5"
           false false None (S754_finite true 3 (-1)) (sample_world [])).
  reflexivity.
Defined.

(** * Further properties of [run_pipeline] *)

(** ** Clock readings and sleeps *)

Lemma stamps_app rs1 rs2 : stamps (rs1 ++ rs2) = stamps rs1 ++ stamps rs2.
Proof. unfold stamps. apply flat_map_app. Qed.

Lemma stamps_success ck k l :
  stamps (success_results ck k l) = map ck (seq k (2 * length l)).
Proof.
  revert k. induction l as [|s l IH]; intros k; [reflexivity|].
  cbn [success_results length].
  replace (2 * S (length l)) with (S (S (2 * length l))) by lia.
  cbn [seq map]. rewrite <- IH. reflexivity.
Qed.

Lemma stamps_skipped ck k l :
  stamps (skipped_results ck k l) = map ck (seq k (length l)).
Proof.
  revert k. induction l as [|s l IH]; intros k; [reflexivity|].
  cbn [skipped_results length seq map]. rewrite <- IH. reflexivity.
Qed.

Lemma executed_app rs1 rs2 : executed (rs1 ++ rs2) = executed rs1 ++ executed rs2.
Proof. unfold executed. apply filter_app. Qed.

Lemma executed_success ck k l :
  executed (success_results ck k l) = success_results ck k l.
Proof.
  revert k. induction l as [|s l IH]; intros k; [reflexivity|].
  cbn [success_results]. unfold executed in *. cbn. now rewrite IH.
Qed.

Lemma executed_skipped ck k l : executed (skipped_results ck k l) = [].
Proof.
  revert k. induction l as [|s l IH]; intros k; [reflexivity|].
  cbn [skipped_results]. unfold executed in *. cbn. apply IH.
Qed.

Lemma sleeps_success rid ck k d l :
  filter is_sleep (success_trace rid ck k d l) = repeat (EvSleep d) (length l).
Proof.
  revert k. induction l as [|s l IH]; intros k; [reflexivity|].
  cbn. now rewrite IH.
Qed.

Lemma sleeps_skipped ck k l : filter is_sleep (skipped_trace ck k l) = [].
Proof.
  revert k. induction l as [|s l IH]; intros k; [reflexivity | apply IH].
Qed.

(** What the loop does to the clock: the stamps of its results are the
    readings it took, in order. *)
Lemma outcome_stamps rid step_seq fs d w rs ov w' :
  loop_outcome rid step_seq fs d w rs ov w' ->
  clock w' = clock w /\
  reads w' = reads w + 2 * length (executed rs)
             + (length rs - length (executed rs)) /\
  stamps rs = map (clock w) (seq (reads w) (reads w' - reads w)).
Proof.
  intros [H | f pre post -> Hne -> Hn]; rewrite clock_advance, reads_advance.
  - rewrite executed_success, length_success, stamps_success.
    split; [reflexivity|]. split; [lia|]. do 2 f_equal. lia.
  - rewrite executed_app, stamps_app. cbn [executed filter].
    fold (executed (success_results (clock w) (reads w) pre)).
    change (is_skipped (failed_result (clock w) (reads w + 2 * length pre) f))
      with false. cbn [negb].
    fold (executed (skipped_results (clock w) (reads w + 2 * length pre + 2) post)).
    rewrite executed_success, executed_skipped, stamps_success.
    rewrite !length_app. cbn [length]. rewrite !length_success, length_skipped.
    split; [reflexivity|]. split; [lia|].
    cbn [stamps flat_map].
    change (is_skipped (failed_result (clock w) (reads w + 2 * length pre) f))
      with false. cbv iota.
    fold (stamps (skipped_results (clock w) (reads w + 2 * length pre + 2) post)).
    rewrite stamps_skipped. cbn [failed_result started_at finished_at app].
    replace (reads w + (2 * length pre + 2 + length post) - reads w)
      with (2 * length pre + (2 + length post)) by lia.
    rewrite seq_app, map_app. f_equal. cbn [Nat.add seq map].
    repeat f_equal; lia.
Qed.

Lemma outcome_sleeps rid step_seq fs d w rs ov w' :
  loop_outcome rid step_seq fs d w rs ov w' ->
  filter is_sleep (trace w')
  = filter is_sleep (trace w)
      ++ repeat (EvSleep (py_max float_zero d)) (length (executed rs)).
Proof.
  intros [H | f pre post -> Hne -> Hn]; rewrite trace_advance, !filter_app.
  - now rewrite sleeps_success, executed_success, length_success.
  - rewrite sleeps_success, sleeps_skipped, executed_app, length_app.
    cbn [failed_trace filter is_sleep app executed].
    change (is_skipped (failed_result (clock w) (reads w + 2 * length pre) f))
      with false. cbn [negb].
    fold (executed (success_results (clock w) (reads w) pre)).
    fold (executed (skipped_results (clock w) (reads w + 2 * length pre + 2) post)).
    rewrite executed_success, executed_skipped, length_success. cbn [length].
    rewrite repeat_app. reflexivity.
Qed.

Lemma outcome_skipped_instant rid step_seq fs d w rs ov w' :
  loop_outcome rid step_seq fs d w rs ov w' ->
  Forall (fun s => is_skipped s = true -> finished_at s = started_at s) rs.
Proof.
  assert (Hsucc : forall ck k l,
            Forall (fun s => is_skipped s = true -> finished_at s = started_at s)
              (success_results ck k l)).
  { intros ck k l. revert k. induction l as [|x l IH]; intros k;
      constructor; [discriminate | apply IH]. }
  assert (Hskip : forall ck k l,
            Forall (fun s => is_skipped s = true -> finished_at s = started_at s)
              (skipped_results ck k l)).
  { intros ck k l. revert k. induction l as [|x l IH]; intros k;
      constructor; [reflexivity | apply IH]. }
  intros [H | f pre post -> Hne -> Hn]; [apply Hsucc|].
  apply Forall_app. split; [apply Hsucc|].
  constructor; [discriminate | apply Hskip].
Qed.

(** X1.  Every timestamp of a returned [RunResult] is a clock reading of
    the run, and together they are all the readings, in the order they were
    taken: the run's [started_at], then for each step its [started_at] and
    [finished_at], then the run's [finished_at]; a skipped step has one
    reading, which is both its [started_at] and its [finished_at].  The run
    reads the clock twice for each step that ran, once for each skipped
    step, and twice for itself. *)
Theorem run_stamps_are_the_clock_readings step_seq rid a rm ay fs d w r w' :
  run_pipeline_over step_seq rid a rm ay fs d w = (Ok r, w') ->
  clock w' = clock w /\
  reads w' = reads w + 2 + 2 * length (executed (steps r))
             + (length (steps r) - length (executed (steps r))) /\
  all_stamps r = map (clock w) (seq (reads w) (reads w' - reads w)) /\
  Forall (fun s => is_skipped s = true -> finished_at s = started_at s)
    (steps r).
Proof.
  intros Hrun.
  destruct (run_returns_inv _ _ _ _ _ _ _ _ _ _ Hrun)
    as (_ & w1 & rs & ov & w2 & Hg & _ & Ho & -> & ->).
  destruct (gate_passes _ _ _ _ _ _ Hg) as (_ & Hc1 & Hr1).
  destruct (outcome_stamps _ _ _ _ _ _ _ _ Ho) as (Hc2 & Hr2 & Hst).
  pose proof (outcome_skipped_instant _ _ _ _ _ _ _ _ Ho) as Hinst.
  unfold run_started in Hc1, Hr1. rewrite clock_advance in Hc1.
  rewrite reads_advance in Hr1.
  unfold all_stamps, run_finished.
  cbn [steps run_started_at run_finished_at].
  rewrite clock_advance, reads_advance, Hst, Hc2, Hc1, Hr2, Hr1.
  split; [reflexivity|]. split; [lia|]. split; [|exact Hinst].
  set (n := 2 * length (executed rs) + (length rs - length (executed rs))).
  replace (reads w + 1 + 2 * length (executed rs)
           + (length rs - length (executed rs)) + 1 - reads w)
    with (1 + (n + 1)) by lia.
  replace (reads w + 1 + 2 * length (executed rs)
           + (length rs - length (executed rs)) - (reads w + 1))
    with n by lia.
  replace (reads w + 1 + 2 * length (executed rs)
           + (length rs - length (executed rs)))
    with (reads w + 1 + n) by lia.
  rewrite seq_app, map_app. cbn [seq map app]. f_equal.
  rewrite seq_app, map_app. cbn [seq map].
  replace (S (reads w)) with (reads w + 1) by lia.
  reflexivity.
Qed.

Lemma run_stamps_are_the_clock_readings_witness :
  exists r w',
    run_pipeline "r1" "worker@0.9.5" false false (Some "test") float_zero
      (sample_world [])
    = (Ok r, w') /\
    reads w' = 8 /\
    all_stamps r
    = ["t"; "t'"; "t''"; "t'''"; "t''''"; "t'''''"; "t''''''"; "t'''''''"] /\
    Forall (fun s => is_skipped s = true -> finished_at s = started_at s)
      (steps r).
Proof.
  destruct (run_pipeline "r1" "worker@0.9.5" false false (Some "test")
              float_zero (sample_world [])) as [[r|e] w'] eqn:Hrun.
  - exists r, w'. split; [reflexivity|].
    destruct (run_stamps_are_the_clock_readings _ _ _ _ _ _ _ _ _ _ Hrun)
      as (_ & Hreads & Hstamps & Hinst).
    vm_compute in Hrun. injection Hrun as <- <-.
    split; [reflexivity|]. split; [exact Hstamps | exact Hinst].
  - vm_compute in Hrun. discriminate Hrun.
Defined.

(** X2.  A returned run has slept exactly once for each step that ran
    (successful or failed), each time for [max(0.0, simulate_seconds)], and
    never for a skipped step. *)
Theorem run_sleeps_once_per_executed_step step_seq rid a rm ay fs d w r w' :
  run_pipeline_over step_seq rid a rm ay fs d w = (Ok r, w') ->
  filter is_sleep (trace w')
  = filter is_sleep (trace w)
      ++ repeat (EvSleep (py_max float_zero d)) (length (executed (steps r))).
Proof.
  intros Hrun.
  destruct (run_returns_inv _ _ _ _ _ _ _ _ _ _ Hrun)
    as (_ & w1 & rs & ov & w2 & Hg & _ & Ho & -> & ->).
  cbn [steps]. unfold run_finished.
  rewrite trace_advance, filter_app, (outcome_sleeps _ _ _ _ _ _ _ _ Ho).
  cbn [filter is_sleep]. rewrite app_nil_r. f_equal.
  revert Hg. unfold run_started. destruct rm; [destruct ay|].
  - rewrite gate_auto. intros [= <-].
    rewrite !trace_advance, !filter_app. cbn. now rewrite !app_nil_r.
  - destruct (stdin w) as [|line rest] eqn:Hin.
    + rewrite gate_eof by (rewrite stdin_advance; exact Hin). discriminate.
    + rewrite (gate_asked rid line rest) by (rewrite stdin_advance; exact Hin).
      cbv zeta. destruct (accepted _); [|discriminate].
      intros [= <-]. cbn [trace]. rewrite ?trace_advance, !filter_app. cbn.
      now rewrite !app_nil_r.
  - rewrite gate_off. intros [= <-].
    rewrite trace_advance, filter_app. cbn. now rewrite app_nil_r.
Qed.

Lemma run_sleeps_once_per_executed_step_witness :
  exists r w',
    run_pipeline "r1" "worker@0.9.5" false false (Some "test")
      (S754_finite false 3 (-1)) (sample_world [])
    = (Ok r, w') /\
    filter is_sleep (trace w')
    = [EvSleep (S754_finite false 3 (-1)); EvSleep (S754_finite false 3 (-1))].
Proof.
  destruct (run_pipeline "r1" "worker@0.9.5" false false (Some "test")
              (S754_finite false 3 (-1)) (sample_world []))
    as [[r|e] w'] eqn:Hrun.
  - exists r, w'. split; [reflexivity|].
    pose proof (run_sleeps_once_per_executed_step _ _ _ _ _ _ _ _ _ _ Hrun)
      as Hs.
    vm_compute in Hrun. injection Hrun as <- <-. exact Hs.
  - vm_compute in Hrun. discriminate Hrun.
Defined.

(** ** How a run can end *)

Lemma run_gate_raises steps rid a rm ay fs d w e w1 :
  artifact_exists a = true ->
  approval_gate rid rm ay (run_started rid a w) = (Raise e, w1) ->
  run_pipeline_over steps rid a rm ay fs d w = (Raise e, w1).
Proof.
  intros Ha Hg. rewrite run_pipeline_over_eq.
  unfold bind at 1. rewrite check_artifact_known by assumption.
  unfold bind at 1. now rewrite Hg.
Qed.

(** The ways for [run_pipeline] to raise. *)
Lemma run_raise_cases step_seq rid a rm ay fs d w e w' :
  run_pipeline_over step_seq rid a rm ay fs d w = (Raise e, w') ->
  filter is_sleep (trace w') = filter is_sleep (trace w) /\
  ((artifact_exists a = false /\
    e = ArtifactNotFoundError ("Unknown artifact: " ++ a)%string)
   \/ (artifact_exists a = true /\ rm = true /\ ay = false /\
       ((stdin w = [] /\ e = EOFError)
        \/ (exists line rest,
              stdin w = line :: rest /\
              accepted (str_lower (str_strip line)) = false /\
              e = ApprovalRejectedError "Approval rejected by user.")))
   \/ (artifact_exists a = true /\ step_seq <> [] /\
       timer_overflow (py_max float_zero d) = true /\
       e = OverflowError)).
Proof.
  intros Hrun. destruct (artifact_exists a) eqn:Ha.
  2:{ rewrite run_unknown_artifact in Hrun by assumption.
      injection Hrun as <- <-. split; [|now left].
      unfold run_started. rewrite !trace_advance, !filter_app. cbn.
      now rewrite !app_nil_r. }
  assert (Hstart : filter is_sleep (trace (run_started rid a w))
                   = filter is_sleep (trace w)).
  { unfold run_started. rewrite trace_advance, filter_app. cbn.
    now rewrite app_nil_r. }
  pose proof (gate_never_sleeps rid rm ay (run_started rid a w)) as Hgate.
  destruct (approval_gate rid rm ay (run_started rid a w)) as [[b|e0] w1] eqn:Hg;
    cbn [snd] in Hgate.
  - destruct (gate_passes _ _ _ _ _ _ Hg) as (-> & _ & _).
    rewrite (run_after_gate step_seq rid a rm ay fs d w w1 Ha Hg) in Hrun.
    destruct (timer_overflow (py_max float_zero d)) eqn:Hfit.
    + destruct step_seq as [|s rest]; [discriminate Hrun|].
      rewrite execute_overflow in Hrun by exact Hfit.
      injection Hrun as <- <-. split.
      * rewrite trace_advance, filter_app, Hgate, Hstart. cbn.
        now rewrite app_nil_r.
      * right. right. repeat split. discriminate.
    + destruct (execute_outcome rid step_seq fs d w1 Hfit)
        as (rs & ov & w2 & He & _).
      rewrite He in Hrun. discriminate Hrun.
  - rewrite (run_gate_raises step_seq rid a rm ay fs d w e0 w1 Ha Hg) in Hrun.
    injection Hrun as <- <-. split; [now rewrite Hgate, Hstart|].
    right. left. split; [reflexivity|]. revert Hg.
    destruct rm; [destruct ay|].
    + rewrite gate_auto. discriminate.
    + intros Hg. split; [reflexivity|]. split; [reflexivity|].
      destruct (stdin w) as [|line rest] eqn:Hin.
      * left. split; [reflexivity|].
        rewrite gate_eof in Hg by exact Hin. now injection Hg as <- _.
      * right. exists line, rest. split; [reflexivity|].
        rewrite (gate_asked rid line rest) in Hg by exact Hin.
        cbv zeta in Hg.
        destruct (accepted (str_lower (str_strip line))); [discriminate Hg|].
        split; [reflexivity|]. now injection Hg as <- _.
    + rewrite gate_off. discriminate.
Qed.



Lemma run_at_end_of_input step_seq rid a fs d w :
  artifact_exists a = true -> stdin w = [] ->
  run_pipeline_over step_seq rid a true false fs d w
  = (Raise EOFError,
     mkWorld (clock w) (reads w + 1) []
       (trace w ++
          [ EvNow (clock w (reads w));
            EvLog INFO rid ("Run started. artifact=" ++ a)%string;
            EvLog INFO rid "Waiting for manual approval..." ])).
Proof.
  intros Ha Hin. rewrite run_pipeline_over_eq.
  unfold bind at 1. rewrite check_artifact_known by assumption.
  unfold bind at 1. rewrite gate_eof by exact Hin.
  unfold run_started. rewrite advance_advance. unfold advance.
  now rewrite Nat.add_0_r, Hin.
Qed.

(** X4.  Manual approval with the console at end of input: [input] raises
    [EOFError], which [run_pipeline] lets through, not an
    [ApprovalRejectedError]; by then the run has read the clock once and
    logged two lines, and no step has run. *)
Theorem approval_at_end_of_input_raises_eof step_seq rid a fs d w :
  artifact_exists a = true -> stdin w = [] ->
  run_pipeline_over step_seq rid a true false fs d w
  = (Raise EOFError,
     mkWorld (clock w) (reads w + 1) []
       (trace w ++
          [ EvNow (clock w (reads w));
            EvLog INFO rid ("Run started. artifact=" ++ a)%string;
            EvLog INFO rid "Waiting for manual approval..." ])).
Proof.
  exact (run_at_end_of_input step_seq rid a fs d w).
Qed.

Lemma approval_at_end_of_input_raises_eof_witness :
  run_pipeline "r1" "worker@0.9.5" true false None float_zero (sample_world [])
  = (Raise EOFError,
     mkWorld sample_clock (0 + 1) []
       ([] ++
          [ EvNow "t";
            EvLog INFO "r1" "Run started. artifact=worker@0.9.5";
            EvLog INFO "r1" "Waiting for manual approval..." ])).
Proof.
  apply (approval_at_end_of_input_raises_eof PIPELINE_STEPS "r1" "worker@0.9.5"
           None float_zero (sample_world [])); reflexivity.
Defined.

Lemma run_refused step_seq rid a fs d w line rest :
  artifact_exists a = true -> stdin w = line :: rest ->
  accepted (str_lower (str_strip line)) = false ->
  run_pipeline_over step_seq rid a true false fs d w
  = (Raise (ApprovalRejectedError "Approval rejected by user."),
     mkWorld (clock w) (reads w + 1) rest
       (trace w ++
          [ EvNow (clock w (reads w));
            EvLog INFO rid ("Run started. artifact=" ++ a)%string;
            EvLog INFO rid "Waiting for manual approval...";
            EvInput default_prompt line;
            EvLog WARNING rid "Approval rejected." ])).
Proof.
  intros Ha Hin Hacc. rewrite run_pipeline_over_eq.
  unfold bind at 1. rewrite check_artifact_known by assumption.
  unfold bind at 1.
  rewrite (gate_asked rid line rest (run_started rid a w)) by exact Hin.
  cbv zeta. rewrite Hacc. unfold run_started, advance. cbn.
  now rewrite Nat.add_0_r, <- !app_assoc.
Qed.

(** X5.  The run takes at most one line from the console: the first one,
    when the artifact is known, manual approval is required and [auto_yes]
    is off; in every other case the console is left untouched.  This holds
    however the run ends. *)
Theorem run_takes_at_most_one_line step_seq rid a rm ay fs d w :
  let asks := artifact_exists a && rm && negb ay in
  let w' := snd (run_pipeline_over step_seq rid a rm ay fs d w) in
  stdin w' = (if asks then tl (stdin w) else stdin w) /\
  filter is_input (trace w')
  = filter is_input (trace w)
      ++ (if asks then map (EvInput default_prompt) (firstn 1 (stdin w))
          else []).
Proof.
  cbv zeta.
  assert (Hpass : forall w1,
            approval_gate rid rm ay (run_started rid a w) = (Ok true, w1) ->
            artifact_exists a = true ->
            let w' := snd (run_pipeline_over step_seq rid a rm ay fs d w) in
            stdin w' = stdin w1 /\
            filter is_input (trace w') = filter is_input (trace w1)).
  { intros w1 Hg Ha. cbv zeta.
    exact (run_console_after_gate step_seq rid a rm ay fs d w w1 Ha Hg). }
  destruct (artifact_exists a) eqn:Ha; cbn [andb].
  2:{ rewrite run_unknown_artifact by assumption. cbn [snd].
      unfold run_started.
      rewrite !stdin_advance, !trace_advance, !filter_app.
      cbn [filter is_input]. now rewrite ?app_nil_r. }
  destruct rm; [destruct ay|]; cbn [andb negb].
  - destruct (Hpass _ (gate_auto rid _) eq_refl) as [-> ->].
    unfold run_started.
    rewrite !stdin_advance, !trace_advance, !filter_app.
    cbn [filter is_input]. now rewrite ?app_nil_r.
  - destruct (stdin w) as [|line rest] eqn:Hin.
    + rewrite run_at_end_of_input by assumption.
      cbn [snd stdin trace tl firstn map]. rewrite filter_app.
      cbn [filter is_input]. now rewrite ?app_nil_r.
    + destruct (accepted (str_lower (str_strip line))) eqn:Hacc.
      * assert (Hg : approval_gate rid true false (run_started rid a w)
                     = (Ok true,
                        mkWorld (clock w) (reads w + 1) rest
                          (trace w ++
                             [ EvNow (clock w (reads w));
                               EvLog INFO rid
                                 ("Run started. artifact=" ++ a)%string;
                               EvLog INFO rid "Waiting for manual approval...";
                               EvInput default_prompt line ]))).
        { rewrite (gate_asked rid line rest) by exact Hin.
          cbv zeta. rewrite Hacc. unfold run_started, advance. cbn.
          now rewrite <- app_assoc. }
        destruct (Hpass _ Hg eq_refl) as [-> ->].
        cbn [stdin trace tl firstn map]. rewrite !filter_app.
        cbn [filter is_input]. now rewrite ?app_nil_r.
      * rewrite (run_refused step_seq rid a fs d w line rest Ha Hin Hacc).
        cbn [snd stdin trace tl firstn map]. rewrite !filter_app.
        cbn [filter is_input app]. now rewrite ?app_nil_r.
  - destruct (Hpass _ (gate_off rid ay _) eq_refl) as [-> ->].
    unfold run_started.
    rewrite !stdin_advance, !trace_advance, !filter_app.
    cbn [filter is_input]. now rewrite ?app_nil_r.
Qed.

(** ** Inputs that the run treats alike *)

Lemma step_loop_fail_step_ext rid steps fs1 fs2 d (todo : list string) :
  (forall s, In s todo -> triggers fs1 s = false) ->
  (forall s, In s todo -> triggers fs2 s = false) ->
  forall acc ov w,
    step_loop rid steps todo fs1 d acc ov w
    = step_loop rid steps todo fs2 d acc ov w.
Proof.
  induction todo as [|s todo IH]; intros H1 H2 acc ov w; [reflexivity|].
  rewrite !step_loop_cons.
  rewrite (H1 s (or_introl eq_refl)), (H2 s (or_introl eq_refl)).
  apply bind_ext; intros t0 w0.
  apply bind_ext; intros _ w1.
  apply bind_ext; intros _ w2.
  apply bind_ext; intros t1 w3.
  apply bind_ext; intros _ w4.
  apply IH; intros x Hx; [apply H1 | apply H2]; now right.
Qed.

Lemma run_fail_step_ext step_seq rid a rm ay fs1 fs2 d w :
  (forall s, In s step_seq -> triggers fs1 s = false) ->
  (forall s, In s step_seq -> triggers fs2 s = false) ->
  run_pipeline_over step_seq rid a rm ay fs1 d w
  = run_pipeline_over step_seq rid a rm ay fs2 d w.
Proof.
  intros H1 H2. rewrite !run_pipeline_over_eq.
  apply bind_ext; intros _ w0.
  apply bind_ext; intros b w1.
  apply bind_same_cont. unfold execute.
  now apply step_loop_fail_step_ext.
Qed.

(** X6.  An empty-string [fail_step] is no [fail_step]: the run is the
    same as with [None], even when the empty string is one of the steps. *)
Theorem empty_fail_step_is_none step_seq rid a rm ay d w :
  run_pipeline_over step_seq rid a rm ay (Some "") d w
  = run_pipeline_over step_seq rid a rm ay None d w.
Proof.
  apply run_fail_step_ext; intros s _; unfold triggers; reflexivity.
Qed.

(** X7.  A [simulate_seconds] that is not greater than zero (a negative
    number, a zero of either sign, or NaN) is replaced by [0.0]: the run is
    the same as with a delay of zero, so a NaN never reaches
    [time.sleep]. *)
Theorem delay_not_above_zero_is_zero step_seq rid a rm ay fs d w :
  SFltb float_zero d = false ->
  py_max float_zero d = float_zero /\
  run_pipeline_over step_seq rid a rm ay fs d w
  = run_pipeline_over step_seq rid a rm ay fs float_zero w.
Proof.
  intros Hd.
  assert (Hc : py_max float_zero d = float_zero)
    by (unfold py_max; now rewrite Hd).
  split; [exact Hc|]. apply run_delay_ext. now rewrite Hc.
Qed.

Lemma delay_not_above_zero_is_zero_witness :
  py_max float_zero S754_nan = float_zero /\
  run_pipeline "r1" "worker@0.9.5" false false None S754_nan (sample_world [])
  = run_pipeline "r1" "worker@0.9.5" false false None float_zero
      (sample_world []).
Proof.
  apply (delay_not_above_zero_is_zero PIPELINE_STEPS "r1" "worker@0.9.5"
           false false None S754_nan (sample_world [])).
  reflexivity.
Defined.

(** ** The answer to the approval prompt *)

Lemma is_space_lower c : is_space (lower_char c) = is_space c.
Proof.
  destruct c as [[] [] [] [] [] [] [] []]; reflexivity.
Qed.

Lemma lower_char_idem c : lower_char (lower_char c) = lower_char c.
Proof.
  destruct c as [[] [] [] [] [] [] [] []]; reflexivity.
Qed.

Lemma lstrip_lower s : lstrip (str_lower s) = str_lower (lstrip s).
Proof.
  induction s as [|c s IH]; [reflexivity|].
  cbn [str_lower lstrip]. rewrite is_space_lower.
  destruct (is_space c); [exact IH | reflexivity].
Qed.

Lemma rstrip_lower s : rstrip (str_lower s) = str_lower (rstrip s).
Proof.
  induction s as [|c s IH]; [reflexivity|].
  cbn [str_lower rstrip]. rewrite IH, is_space_lower.
  destruct (rstrip s); cbn [str_lower]; [destruct (is_space c)|]; reflexivity.
Qed.

Lemma strip_lower s : str_strip (str_lower s) = str_lower (str_strip s).
Proof.
  unfold str_strip. now rewrite lstrip_lower, rstrip_lower.
Qed.

Lemma append_String c s1 s2 :
  (String c s1 ++ s2)%string = String c (s1 ++ s2)%string.
Proof. reflexivity. Qed.

Lemma append_empty s : ("" ++ s)%string = s.
Proof. reflexivity. Qed.

Lemma lstrip_spaces pad s : all_space pad = true -> lstrip (pad ++ s) = lstrip s.
Proof.
  induction pad as [|c pad IH]; intros H; [reflexivity|].
  cbn [all_space] in H. apply andb_true_iff in H. destruct H as [Hc Hp].
  rewrite append_String; cbn [lstrip]. rewrite Hc. now apply IH.
Qed.

Lemma rstrip_all_space s : all_space s = true -> rstrip s = "".
Proof.
  induction s as [|c s IH]; intros H; [reflexivity|].
  cbn [all_space] in H. apply andb_true_iff in H. destruct H as [Hc Hp].
  cbn [rstrip]. now rewrite (IH Hp), Hc.
Qed.

Lemma rstrip_spaces s pad : all_space pad = true -> rstrip (s ++ pad) = rstrip s.
Proof.
  intros Hp. induction s as [|c s IH].
  - rewrite append_empty. cbn [rstrip]. now apply rstrip_all_space.
  - rewrite append_String. cbn [rstrip]. now rewrite IH.
Qed.

Lemma lstrip_all_space s : all_space s = true -> lstrip s = "".
Proof.
  induction s as [|c s IH]; intros H; [reflexivity|].
  cbn [all_space] in H. apply andb_true_iff in H. destruct H as [Hc Hp].
  cbn [lstrip]. rewrite Hc. now apply IH.
Qed.

Lemma lstrip_append s pad :
  all_space s = false -> lstrip (s ++ pad) = (lstrip s ++ pad)%string.
Proof.
  induction s as [|c s IH]; intros H; [discriminate H|].
  cbn [all_space] in H. rewrite append_String; cbn [lstrip].
  destruct (is_space c); [apply IH; exact H | reflexivity].
Qed.

Lemma all_space_append s1 s2 :
  all_space (s1 ++ s2) = all_space s1 && all_space s2.
Proof.
  induction s1 as [|c s1 IH]; [reflexivity|].
  rewrite append_String. cbn [all_space]. now rewrite IH, andb_assoc.
Qed.

Lemma strip_padded pad1 s pad2 :
  all_space pad1 = true -> all_space pad2 = true ->
  str_strip (pad1 ++ s ++ pad2) = str_strip s.
Proof.
  intros H1 H2. unfold str_strip. rewrite lstrip_spaces by assumption.
  destruct (all_space s) eqn:Hs.
  - rewrite !lstrip_all_space; [reflexivity | assumption |].
    now rewrite all_space_append, Hs, H2.
  - rewrite lstrip_append by assumption. now apply rstrip_spaces.
Qed.

(** X8.  The answer to the approval prompt is read without regard to
    surrounding white space or to letter case: padding the line with white
    space on either side, or replacing it by its lower-case form, does not
    change what [require_approval] returns. *)
Theorem approval_ignores_case_and_padding prompt pad1 line pad2 rest1 rest2 w1 w2 :
  all_space pad1 = true -> all_space pad2 = true ->
  stdin w1 = line :: rest1 ->
  stdin w2 = (pad1 ++ line ++ pad2)%string :: rest2
  \/ stdin w2 = str_lower line :: rest2 ->
  fst (require_approval prompt false w2) = fst (require_approval prompt false w1).
Proof.
  intros H1 H2 Hin1 Hin2.
  unfold require_approval, bind, input, ret. rewrite Hin1.
  destruct Hin2 as [-> | ->]; cbn [fst].
  - now rewrite strip_padded.
  - rewrite strip_lower.
    assert (Hi : forall s, str_lower (str_lower s) = str_lower s).
    { induction s as [|c s IH]; [reflexivity|].
      cbn [str_lower]. now rewrite lower_char_idem, IH. }
    now rewrite Hi.
Qed.

Lemma approval_ignores_case_and_padding_witness :
  fst (require_approval default_prompt false (sample_world ["  Yes  "; "n"]))
  = fst (require_approval default_prompt false (sample_world ["Yes"])).
Proof.
  apply (approval_ignores_case_and_padding default_prompt "  " "Yes" "  "
           [] ["n"] (sample_world ["Yes"]) (sample_world ["  Yes  "; "n"])).
  - reflexivity.
  - reflexivity.
  - reflexivity.
  - left. reflexivity.
Defined.

(** X9.  An answer of white space only, the empty line included, is a
    refusal: [require_approval] returns [False] (the default of the
    "(y/N)" prompt), having taken that one line from the console. *)
Theorem blank_answer_is_refusal prompt line rest w :
  all_space line = true -> stdin w = line :: rest ->
  require_approval prompt false w
  = (Ok false,
     mkWorld (clock w) (reads w) rest (trace w ++ [EvInput prompt line])).
Proof.
  intros Hs Hin. unfold require_approval, bind, input, ret. rewrite Hin.
  unfold str_strip. now rewrite lstrip_all_space.
Qed.

Lemma blank_answer_is_refusal_witness :
  require_approval default_prompt false (sample_world [" "; "y"])
  = (Ok false,
     mkWorld sample_clock 0 ["y"] ([] ++ [EvInput default_prompt " "])).
Proof.
  apply (blank_answer_is_refusal default_prompt " " ["y"]
           (sample_world [" "; "y"])); reflexivity.
Defined.

(** * The command line *)

(** ** The console *)

Lemma console_input_line line rest t :
  stdin (host t) = line :: rest ->
  console_input select_prompt t
  = (Ok line, after_lines t [line] rest [OutText select_prompt]).
Proof.
  intros Hin. unfold console_input, tbind, console_print, lift, input.
  cbn. now rewrite Hin.
Qed.

Lemma console_input_eof t :
  stdin (host t) = [] ->
  console_input select_prompt t
  = (Raise EOFError, after_lines t [] [] [OutText select_prompt]).
Proof.
  intros Hin. unfold console_input, tbind, console_print, lift, input.
  cbn. rewrite Hin. unfold after_lines. cbn. rewrite app_nil_r.
  rewrite <- Hin. now rewrite world_eta.
Qed.

Lemma after_lines_after_lines t l1 r1 o1 l2 r2 o2 :
  after_lines (after_lines t l1 r1 o1) l2 r2 o2
  = after_lines t (l1 ++ l2) r2 (o1 ++ o2).
Proof.
  unfold after_lines. cbn. now rewrite map_app, !app_assoc.
Qed.

Lemma render_artifacts_eq t :
  _render_artifacts t
  = (Ok (map key list_artifacts), after_lines t [] (stdin (host t)) [artifacts_table]).
Proof.
  unfold _render_artifacts, tbind, console_print, tret, after_lines.
  cbn. now rewrite app_nil_r, world_eta.
Qed.

(** ** One turn of the loop *)

Lemma pick_loop_eq max keys fuel t :
  pick_loop max keys fuel t
  = (line <- console_input select_prompt ;;
     if negb (str_isdigit (str_strip line)) then
       console_print (OutText "[red]Please enter a number.[/red]") ;;
       match fuel with
       | O => traise EOFError
       | S n => pick_loop max keys n
       end
     else
       idx <- py_int max (str_strip line) ;;
       if ((1 <=? idx) && (idx <=? N.of_nat (length keys)))%N then
         tret (nth (N.to_nat idx - 1) keys "")
       else
         console_print (OutText "[red]Invalid selection.[/red]") ;;
         match fuel with
         | O => traise EOFError
         | S n => pick_loop max keys n
         end)%cli t.
Proof. destruct fuel; reflexivity. Qed.

Lemma pick_loop_eof max keys fuel t :
  stdin (host t) = [] ->
  pick_loop max keys fuel t
  = (Raise EOFError, after_lines t [] [] [OutText select_prompt]).
Proof.
  intros Hin. rewrite pick_loop_eq. unfold tbind at 1.
  now rewrite console_input_eof.
Qed.

Lemma pick_loop_turned_down max keys fuel line rest t :
  stdin (host t) = line :: rest ->
  turned_down max keys line = true ->
  pick_loop max keys (S fuel) t
  = pick_loop max keys fuel (after_lines t [line] rest (turn_down_output line)).
Proof.
  intros Hin Htd. rewrite pick_loop_eq. unfold tbind at 1.
  rewrite (console_input_line line rest t Hin).
  unfold turned_down, turn_down_output in *.
  destruct (str_isdigit (str_strip line)) eqn:Hd; cbn [negb].
  - apply andb_true_iff in Htd. destruct Htd as [Htd Hrange].
    apply andb_true_iff in Htd. destruct Htd as [Hdec Hlim].
    unfold py_int.
    assert (Hne : negb (str_strip line =? "") = true).
    { unfold str_isdigit in Hd. now apply andb_true_iff in Hd. }
    rewrite Hne, Hdec. cbn [andb].
    apply negb_true_iff in Hlim. rewrite Hlim.
    unfold tbind at 1. unfold tret at 1.
    apply negb_true_iff in Hrange. rewrite Hrange.
    unfold tbind, console_print. cbn [screen host].
    unfold after_lines. cbn. now rewrite <- app_assoc.
  - unfold tbind, console_print. cbn [screen host].
    unfold after_lines. cbn. now rewrite <- app_assoc.
Qed.

Lemma pick_loop_chosen max keys fuel line rest k t :
  stdin (host t) = line :: rest ->
  chosen max keys line = Some k ->
  pick_loop max keys fuel t
  = (Ok k, after_lines t [line] rest [OutText select_prompt]).
Proof.
  intros Hin Hch. rewrite pick_loop_eq. unfold tbind at 1.
  rewrite (console_input_line line rest t Hin).
  unfold chosen in Hch.
  destruct (str_isdigit (str_strip line)) eqn:Hd; [|discriminate Hch].
  destruct (all_chars is_decimal_char (str_strip line)) eqn:Hdec;
    [|discriminate Hch].
  cbn [andb negb] in *.
  unfold py_int.
  assert (Hne : negb (str_strip line =? "") = true).
  { unfold str_isdigit in Hd. now apply andb_true_iff in Hd. }
  rewrite Hne, Hdec. cbn [andb].
  destruct ((640 <? String.length (str_strip line))
            && (0 <? max) && (max <? String.length (str_strip line)))%nat;
    [discriminate Hch|].
  cbn [negb] in Hch. unfold tbind at 1. unfold tret at 1.
  destruct ((1 <=? decimal_value 0 (str_strip line))
            && (decimal_value 0 (str_strip line) <=? N.of_nat (length keys)))%N;
    [|discriminate Hch].
  injection Hch as <-. reflexivity.
Qed.

(** Lines that are turned down are passed over one by one. *)
Lemma pick_loop_pass_over max keys (bad : list string) : forall fuel rest t,
  Forall (fun l => turned_down max keys l = true) bad ->
  stdin (host t) = bad ++ rest ->
  pick_loop max keys (length bad + fuel) t
  = pick_loop max keys fuel
      (after_lines t bad rest (flat_map turn_down_output bad)).
Proof.
  induction bad as [|l bad IH]; intros fuel rest t Hbad Hin.
  - cbn [length Nat.add flat_map]. unfold after_lines. cbn [map].
    rewrite !app_nil_r. cbn [app] in Hin. rewrite <- Hin.
    rewrite world_eta. now destruct t.
  - inversion Hbad as [|? ? Hl Hbad']; subst.
    cbn [length Nat.add].
    rewrite (pick_loop_turned_down max keys _ l (bad ++ rest) t Hin Hl).
    rewrite (IH fuel rest (after_lines t [l] (bad ++ rest) (turn_down_output l))
               Hbad' eq_refl).
    now rewrite after_lines_after_lines.
Qed.

(** A key that the loop returns is one of [keys]. *)
Lemma pick_loop_in_keys max keys fuel : forall t k t',
  pick_loop max keys fuel t = (Ok k, t') -> In k keys.
Proof.
  induction fuel as [|fuel IH]; intros t k t'; rewrite pick_loop_eq;
    unfold tbind at 1;
    (destruct (console_input select_prompt t) as [[line|e] t1];
     [|discriminate]);
    (destruct (negb (str_isdigit (str_strip line)));
     [ unfold tbind, console_print, traise; try discriminate; eauto |]);
    unfold tbind at 1;
    (destruct (py_int max (str_strip line) t1) as [[idx|e] t2];
     [|discriminate]);
    (destruct ((1 <=? idx) && (idx <=? N.of_nat (length keys)))%N eqn:Hr;
     [| unfold tbind, console_print, traise; try discriminate; eauto ]);
    unfold tret; intros [= <- _];
    apply andb_true_iff in Hr; destruct Hr as [H1 H2];
    apply N.leb_le in H1, H2; apply nth_In; lia.
Qed.

Lemma pick_loop_breaks max keys fuel line rest t :
  stdin (host t) = line :: rest ->
  breaks_int max line = true ->
  exists msg,
    pick_loop max keys fuel t
    = (Raise (ValueError msg),
       after_lines t [line] rest [OutText select_prompt]).
Proof.
  intros Hin Hb. rewrite pick_loop_eq. unfold tbind at 1.
  rewrite (console_input_line line rest t Hin).
  unfold breaks_int in Hb. apply andb_true_iff in Hb. destruct Hb as [Hd Hb].
  rewrite Hd. cbn [negb]. unfold tbind, py_int.
  assert (Hne : negb (str_strip line =? "") = true).
  { unfold str_isdigit in Hd. now apply andb_true_iff in Hd. }
  rewrite Hne. cbn [andb].
  destruct (all_chars is_decimal_char (str_strip line)); cbn [andb] in Hb.
  - apply negb_true_iff, negb_false_iff in Hb. rewrite Hb.
    unfold traise. eauto.
  - unfold traise. eauto.
Qed.

Lemma pick_loop_turn max keys fuel line rest t :
  stdin (host t) = line :: rest ->
  pick_loop max keys fuel t
  = let t1 := after_lines t [line] rest [OutText select_prompt] in
    let again :=
      match fuel with
      | O => traise EOFError
      | S n => pick_loop max keys n
      end in
    if negb (str_isdigit (str_strip line)) then
      again (snd (console_print
                    (OutText "[red]Please enter a number.[/red]") t1))
    else
      match py_int max (str_strip line) t1 with
      | (Ok idx, t2) =>
          if ((1 <=? idx) && (idx <=? N.of_nat (length keys)))%N
          then (Ok (nth (N.to_nat idx - 1) keys ""), t2)
          else again (snd (console_print
                             (OutText "[red]Invalid selection.[/red]") t2))
      | (Raise e, t2) => (Raise e, t2)
      end.
Proof.
  intros Hin. rewrite pick_loop_eq. unfold tbind at 1.
  rewrite (console_input_line line rest t Hin). cbv zeta.
  destruct (negb (str_isdigit (str_strip line))); [reflexivity|].
  unfold tbind at 1.
  destruct (py_int max (str_strip line) _) as [[idx|e] t2]; [|reflexivity].
  destruct ((1 <=? idx) && (idx <=? N.of_nat (length keys)))%N; reflexivity.
Qed.

Lemma py_int_keeps_terminal max s t r t' : py_int max s t = (r, t') -> t' = t.
Proof.
  unfold py_int, tret, traise.
  repeat match goal with
         | |- (if ?b then _ else _) _ = _ -> _ => destruct b
         end; now intros [= _ <-].
Qed.

(** The bound on the turns is never what stops the loop: with at least as
    many turns allowed as the console holds lines, the loop does the
    same. *)
Lemma pick_loop_enough_fuel max keys (lines : list string) : forall f1 f2 t,
  stdin (host t) = lines -> length lines <= f1 -> length lines <= f2 ->
  pick_loop max keys f1 t = pick_loop max keys f2 t.
Proof.
  induction lines as [|line rest IH]; intros f1 f2 t Hin H1 H2.
  - now rewrite !pick_loop_eof.
  - destruct f1 as [|f1]; [cbn in H1; lia|].
    destruct f2 as [|f2]; [cbn in H2; lia|].
    cbn [length] in H1, H2.
    rewrite (pick_loop_turn max keys (S f1) line rest t Hin).
    rewrite (pick_loop_turn max keys (S f2) line rest t Hin).
    cbv zeta.
    destruct (negb (str_isdigit (str_strip line))).
    + apply IH; [reflexivity | lia | lia].
    + destruct (py_int max (str_strip line) _) as [[idx|e] t2] eqn:Hint;
        [|reflexivity].
      apply py_int_keeps_terminal in Hint. subst t2.
      destruct ((1 <=? idx) && (idx <=? N.of_nat (length keys)))%N;
        [reflexivity|].
      apply IH; [reflexivity | lia | lia].
Qed.

(** ** The interactive choice *)

Lemma picked_key_exists max t k t' :
  _pick_artifact_interactive max t = (Ok k, t') ->
  artifact_exists k = true.
Proof.
  unfold _pick_artifact_interactive, tbind. rewrite render_artifacts_eq.
  intros H. apply pick_loop_in_keys in H.
  unfold artifact_exists. apply existsb_exists.
  apply in_map_iff in H. destruct H as (a & <- & Ha).
  exists a. split; [exact Ha | apply String.eqb_refl].
Qed.

(** X10.  Whatever is typed, a key that [_pick_artifact_interactive]
    returns is a key of the registry: [artifact_exists] holds for it. *)
Theorem pick_returns_a_registry_key max t k t' :
  _pick_artifact_interactive max t = (Ok k, t') ->
  artifact_exists k = true.
Proof.
  exact (picked_key_exists max t k t').
Qed.

Lemma pick_returns_a_registry_key_witness :
  exists k t',
    _pick_artifact_interactive 4300 (sample_terminal ["no"; "9"; " 3 "])
    = (Ok k, t') /\
    artifact_exists k = true.
Proof.
  destruct (_pick_artifact_interactive 4300
              (sample_terminal ["no"; "9"; " 3 "])) as [[k|e] t'] eqn:Hp.
  - exists k, t'. split; [reflexivity|].
    exact (pick_returns_a_registry_key _ _ _ _ Hp).
  - vm_compute in Hp. discriminate Hp.
Defined.

(** X11.  The loop passes over the lines it turns down (a line that is not
    a string of digits, or a decimal number outside 1 to the number of
    artifacts), answering each with the prompt and an error line, and
    returns the key selected by the first line that is a number in that
    range, provided every line before it is one it turns down; the lines
    after it stay on the console. *)
Theorem pick_takes_the_first_valid_line max bad good rest k t :
  Forall (fun l => turned_down max (map key list_artifacts) l = true) bad ->
  chosen max (map key list_artifacts) good = Some k ->
  stdin (host t) = bad ++ good :: rest ->
  _pick_artifact_interactive max t
  = (Ok k,
     after_lines t (bad ++ [good]) rest
       (artifacts_table :: flat_map turn_down_output bad
          ++ [OutText select_prompt])).
Proof.
  intros Hbad Hch Hin.
  unfold _pick_artifact_interactive, tbind. rewrite render_artifacts_eq.
  cbn [after_lines host stdin]. rewrite Hin, length_app. cbn [length].
  rewrite (pick_loop_pass_over max _ bad (S (length rest)) (good :: rest))
    by (assumption || reflexivity).
  rewrite (pick_loop_chosen max _ _ good rest k) by (reflexivity || assumption).
  rewrite !after_lines_after_lines. reflexivity.
Qed.

Lemma pick_takes_the_first_valid_line_witness :
  _pick_artifact_interactive 4300 (sample_terminal ["x"; "0"; " 2"; "y"])
  = (Ok "web-frontend@2.3.1",
     after_lines (sample_terminal ["x"; "0"; " 2"; "y"]) (["x"; "0"] ++ [" 2"])
       ["y"]
       (artifacts_table :: flat_map turn_down_output ["x"; "0"]
          ++ [OutText select_prompt])).
Proof.
  apply (pick_takes_the_first_valid_line 4300 ["x"; "0"] " 2" ["y"]
           "web-frontend@2.3.1" (sample_terminal ["x"; "0"; " 2"; "y"])).
  - repeat constructor.
  - reflexivity.
  - reflexivity.
Defined.

(** Every line is of exactly one kind: turned down, selecting a key, or one
    that [str.isdigit] lets through and [int] rejects. *)
Lemma line_classes max keys line :
  (turned_down max keys line = true /\
   chosen max keys line = None /\ breaks_int max line = false)
  \/ (turned_down max keys line = false /\
      (exists k, chosen max keys line = Some k) /\ breaks_int max line = false)
  \/ (turned_down max keys line = false /\
      chosen max keys line = None /\ breaks_int max line = true).
Proof.
  unfold turned_down, chosen, breaks_int. cbv zeta.
  destruct (str_isdigit (str_strip line));
    destruct (all_chars is_decimal_char (str_strip line));
    destruct ((640 <? String.length (str_strip line)) && (0 <? max)
              && (max <? String.length (str_strip line)))%nat;
    destruct ((1 <=? decimal_value 0 (str_strip line))
              && (decimal_value 0 (str_strip line) <=? N.of_nat (length keys)))%N;
    cbn; eauto 8.
Qed.

Lemma first_not_turned_down max keys (lines : list string) :
  Forall (fun l => turned_down max keys l = true) lines
  \/ exists bad x rest,
       lines = bad ++ x :: rest /\
       Forall (fun l => turned_down max keys l = true) bad /\
       turned_down max keys x = false.
Proof.
  induction lines as [|l lines IH]; [now left|].
  destruct (turned_down max keys l) eqn:Hl.
  - destruct IH as [IH | (bad & x & rest & -> & Hbad & Hx)].
    + left. now constructor.
    + right. exists (l :: bad), x, rest. repeat split; auto.
  - right. exists [], l, lines. repeat split; auto.
Qed.

Lemma pick_first_valid max bad good rest k t :
  Forall (fun l => turned_down max (map key list_artifacts) l = true) bad ->
  chosen max (map key list_artifacts) good = Some k ->
  stdin (host t) = bad ++ good :: rest ->
  _pick_artifact_interactive max t
  = (Ok k,
     after_lines t (bad ++ [good]) rest
       (artifacts_table :: flat_map turn_down_output bad
          ++ [OutText select_prompt])).
Proof.
  intros Hbad Hch Hin.
  unfold _pick_artifact_interactive, tbind. rewrite render_artifacts_eq.
  cbn [after_lines host stdin]. rewrite Hin, length_app. cbn [length].
  rewrite (pick_loop_pass_over max _ bad (S (length rest)) (good :: rest))
    by (assumption || reflexivity).
  rewrite (pick_loop_chosen max _ _ good rest k) by (reflexivity || assumption).
  rewrite !after_lines_after_lines. reflexivity.
Qed.

Lemma pick_breaks max bad line rest t :
  Forall (fun l => turned_down max (map key list_artifacts) l = true) bad ->
  breaks_int max line = true ->
  stdin (host t) = bad ++ line :: rest ->
  exists msg,
    _pick_artifact_interactive max t
    = (Raise (ValueError msg),
       after_lines t (bad ++ [line]) rest
         (artifacts_table :: flat_map turn_down_output bad
            ++ [OutText select_prompt])).
Proof.
  intros Hbad Hb Hin.
  unfold _pick_artifact_interactive, tbind. rewrite render_artifacts_eq.
  cbn [after_lines host stdin]. rewrite Hin, length_app. cbn [length].
  rewrite (pick_loop_pass_over max _ bad (S (length rest)) (line :: rest))
    by (assumption || reflexivity).
  destruct (pick_loop_breaks max (map key list_artifacts) (S (length rest))
              line rest
              (after_lines
                 (after_lines t [] (bad ++ line :: rest) [artifacts_table])
                 bad (line :: rest) (flat_map turn_down_output bad))
              eq_refl Hb) as (msg & ->).
  exists msg. rewrite !after_lines_after_lines. reflexivity.
Qed.

Lemma pick_all_turned_down max t :
  Forall (fun l => turned_down max (map key list_artifacts) l = true)
    (stdin (host t)) ->
  _pick_artifact_interactive max t
  = (Raise EOFError,
     after_lines t (stdin (host t)) []
       (artifacts_table :: flat_map turn_down_output (stdin (host t))
          ++ [OutText select_prompt])).
Proof.
  intros Hbad.
  unfold _pick_artifact_interactive, tbind. rewrite render_artifacts_eq.
  cbn [after_lines host stdin].
  rewrite <- (Nat.add_0_r (length (stdin (host t)))).
  rewrite (pick_loop_pass_over max _ (stdin (host t)) 0 [])
    by (assumption || (cbn; now rewrite app_nil_r)).
  rewrite pick_loop_eof by reflexivity.
  rewrite !after_lines_after_lines. now rewrite app_nil_r.
Qed.

(** X12.  [_pick_artifact_interactive] ends in [EOFError] exactly when it
    turns down every line on the console (each is not a string of digits,
    or is a decimal number outside 1 to the number of artifacts); it has
    then prompted once more after the last line.  A line that
    [str.isdigit] accepts and [int] rejects is not turned down: it ends
    the function in [ValueError] instead. *)
Theorem pick_ends_in_eof max t :
  (fst (_pick_artifact_interactive max t) = Raise EOFError
   <-> Forall (fun l => turned_down max (map key list_artifacts) l = true)
         (stdin (host t))) /\
  (Forall (fun l => turned_down max (map key list_artifacts) l = true)
     (stdin (host t)) ->
   _pick_artifact_interactive max t
   = (Raise EOFError,
      after_lines t (stdin (host t)) []
        (artifacts_table :: flat_map turn_down_output (stdin (host t))
           ++ [OutText select_prompt]))).
Proof.
  split; [|apply pick_all_turned_down].
  split; [|intros H; now rewrite pick_all_turned_down].
  intros Heof.
  destruct (first_not_turned_down max (map key list_artifacts) (stdin (host t)))
    as [Hall | (bad & x & rest & Hin & Hbad & Hx)]; [exact Hall|].
  exfalso.
  destruct (line_classes max (map key list_artifacts) x)
    as [(Htd & _) | [(_ & (k & Hk) & _) | (_ & _ & Hb)]].
  - rewrite Hx in Htd. discriminate Htd.
  - rewrite (pick_first_valid max bad x rest k t Hbad Hk Hin) in Heof.
    discriminate Heof.
  - destruct (pick_breaks max bad x rest t Hbad Hb Hin) as (msg & Hp).
    rewrite Hp in Heof. discriminate Heof.
Qed.

Lemma pick_ends_in_eof_witness :
  _pick_artifact_interactive 4300 (sample_terminal ["4"; "-1"])
  = (Raise EOFError,
     after_lines (sample_terminal ["4"; "-1"]) ["4"; "-1"] []
       (artifacts_table :: flat_map turn_down_output ["4"; "-1"]
          ++ [OutText select_prompt])).
Proof.
  apply (proj2 (pick_ends_in_eof 4300 (sample_terminal ["4"; "-1"]))).
  repeat constructor.
Defined.

(** X13.  A line that [str.isdigit] accepts but [int] does not (a
    superscript digit such as U+00B2, or more digits than the interpreter's
    limit) makes [_pick_artifact_interactive] raise [ValueError]: the loop
    does not ask again. *)
Theorem pick_raises_on_a_digit_int_rejects max bad line rest t :
  Forall (fun l => turned_down max (map key list_artifacts) l = true) bad ->
  breaks_int max line = true ->
  stdin (host t) = bad ++ line :: rest ->
  exists msg,
    _pick_artifact_interactive max t
    = (Raise (ValueError msg),
       after_lines t (bad ++ [line]) rest
         (artifacts_table :: flat_map turn_down_output bad
            ++ [OutText select_prompt])).
Proof.
  intros Hbad Hb Hin.
  unfold _pick_artifact_interactive, tbind. rewrite render_artifacts_eq.
  cbn [after_lines host stdin]. rewrite Hin, length_app. cbn [length].
  rewrite (pick_loop_pass_over max _ bad (S (length rest)) (line :: rest))
    by (assumption || reflexivity).
  destruct (pick_loop_breaks max (map key list_artifacts) (S (length rest))
              line rest
              (after_lines
                 (after_lines t [] (bad ++ line :: rest) [artifacts_table])
                 bad (line :: rest) (flat_map turn_down_output bad))
              eq_refl Hb) as (msg & ->).
  exists msg. rewrite !after_lines_after_lines. reflexivity.
Qed.

Lemma pick_raises_on_a_digit_int_rejects_witness :
  exists msg,
    _pick_artifact_interactive 4300 (sample_terminal ["?"; String "178"%char ""; "1"])
    = (Raise (ValueError msg),
       after_lines (sample_terminal ["?"; String "178"%char ""; "1"])
         (["?"] ++ [String "178"%char ""]) ["1"]
         (artifacts_table :: flat_map turn_down_output ["?"]
            ++ [OutText select_prompt])).
Proof.
  apply (pick_raises_on_a_digit_int_rejects 4300 ["?"] (String "178"%char "")
           ["1"] (sample_terminal ["?"; String "178"%char ""; "1"])).
  - repeat constructor.
  - reflexivity.
  - reflexivity.
Defined.

(** ** The checked options of [run] and the run that follows *)

Lemma mem_In x l : mem x l = true <-> In x l.
Proof.
  unfold mem. rewrite existsb_exists. split.
  - intros (y & Hy & He). apply String.eqb_eq in He. now subst.
  - intros H. exists x. split; [exact H | apply String.eqb_refl].
Qed.

(** A loop run with a non-empty [fail_step] taken from the steps. *)
Lemma outcome_failure_shape rid step_seq f d w rs ov w' :
  loop_outcome rid step_seq (Some f) d w rs ov w' ->
  In f step_seq -> f <> "" ->
  ov = "failed" /\ failure_shape step_seq f rs.
Proof.
  intros Ho Hin Hne.
  destruct Ho as [Hno | f' pre post [= <-] _ -> Hn].
  - pose proof (triggers_self f Hne) as Ht.
    rewrite (Hno f Hin) in Ht. discriminate Ht.
  - split; [reflexivity|].
    unfold failure_shape, names, statuses.
    rewrite length_app, !map_app. cbn [length map failed_result name status].
    fold (names (success_results (clock w) (reads w) pre)).
    fold (names (skipped_results (clock w) (reads w + 2 * length pre + 2) post)).
    fold (statuses (success_results (clock w) (reads w) pre)).
    fold (statuses (skipped_results (clock w) (reads w + 2 * length pre + 2) post)).
    rewrite names_success, names_skipped, statuses_success, statuses_skipped.
    rewrite length_success, length_skipped, length_app. cbn [length].
    repeat split. now exists pre, post.
Qed.

Lemma run_options_inv max artifact_opt fail_step t k fs t' :
  run_options max artifact_opt fail_step t = (Valid (k, fs), t') ->
  artifact_exists k = true /\
  fs = fail_step /\
  (artifact_opt = None \/ artifact_opt = Some k) /\
  (fs = None \/ exists f, fs = Some f /\ In f PIPELINE_STEPS /\ f <> "").
Proof.
  unfold run_options.
  assert (Hfs : forall k0 t0,
            match fail_step with
            | Some f =>
                if negb (mem f PIPELINE_STEPS)
                then (BadParameter
                        ("--fail-step must be one of: "
                           ++ join_comma PIPELINE_STEPS)%string, t0)
                else (Valid (k0, fail_step), t0)
            | None => (Valid (k0, fail_step), t0)
            end = (Valid (k, fs), t') ->
            k0 = k /\ fs = fail_step /\
            (fs = None \/ exists f, fs = Some f /\ In f PIPELINE_STEPS /\ f <> "")).
  { intros k0 t0. destruct fail_step as [f|].
    - destruct (mem f PIPELINE_STEPS) eqn:Hm; cbn [negb]; [|discriminate].
      intros [= <- <- <-]. apply mem_In in Hm.
      repeat split. right. exists f.
      repeat split; [exact Hm | now apply pipeline_steps_named].
    - intros [= <- <- <-]. auto. }
  destruct artifact_opt as [k0|].
  - destruct (artifact_exists k0) eqn:Ha; cbn [negb]; [|discriminate].
    intros H. destruct (Hfs _ _ H) as (<- & -> & Hf). auto.
  - destruct (_pick_artifact_interactive max t) as [[k0|e] t1] eqn:Hp;
      [|discriminate].
    intros H. destruct (Hfs _ _ H) as (<- & -> & Hf).
    split; [exact (picked_key_exists _ _ _ _ Hp)|]. auto.
Qed.


(** X14.  Options that pass the checks of [run] name an artifact of the
    registry (typed on the command line or chosen at the console) and carry
    the [--fail-step] unchanged, which is then absent or one of the
    pipeline's steps; an unknown artifact or step is a [BadParameter]. *)
Theorem checked_options_are_known max artifact_opt fail_step t k fs t' :
  run_options max artifact_opt fail_step t = (Valid (k, fs), t') ->
  artifact_exists k = true /\
  fs = fail_step /\
  (artifact_opt = None \/ artifact_opt = Some k) /\
  (fs = None \/ exists f, fs = Some f /\ In f PIPELINE_STEPS /\ f <> "").
Proof.
  exact (run_options_inv max artifact_opt fail_step t k fs t').
Qed.

Lemma checked_options_are_known_witness :
  exists k fs t',
    run_options 4300 None (Some "deploy") (sample_terminal ["2"])
    = (Valid (k, fs), t') /\
    artifact_exists k = true /\ fs = Some "deploy".
Proof.
  destruct (run_options 4300 None (Some "deploy") (sample_terminal ["2"]))
    as [[[k fs]|msg|e] t'] eqn:Hr.
  - exists k, fs, t'. split; [reflexivity|].
    destruct (checked_options_are_known _ _ _ _ _ _ _ Hr) as (Ha & Hfs & _).
    split; [exact Ha | exact Hfs].
  - vm_compute in Hr. discriminate Hr.
  - vm_compute in Hr. discriminate Hr.
Defined.

(** X15.  A run started with options that passed the checks of [run]
    never raises [ArtifactNotFoundError]; and when a [--fail-step] was
    given, every [RunResult] it returns is ["failed"], with the steps before
    the given one ["success"], that step ["failed"] and the later ones
    ["skipped"]. *)
Theorem checked_fail_step_fails_the_run
    max artifact_opt fail_step t k fs t' rid rm ay d w :
  run_options max artifact_opt fail_step t = (Valid (k, fs), t') ->
  (forall msg w',
     run_pipeline rid k rm ay fs d w <> (Raise (ArtifactNotFoundError msg), w')) /\
  (forall f r w',
     fs = Some f ->
     run_pipeline rid k rm ay fs d w = (Ok r, w') ->
     run_status r = "failed" /\ failure_shape PIPELINE_STEPS f (steps r)).
Proof.
  intros Hopt.
  destruct (run_options_inv _ _ _ _ _ _ _ Hopt) as (Ha & _ & _ & Hf). split.
  - intros msg w' Hrun.
    destruct (run_raise_cases _ _ _ _ _ _ _ _ _ _ Hrun)
      as (_ & [(Hno & _) | [(_ & _ & _ & [(_ & He) | (l & rest & _ & _ & He)])
                           | (_ & _ & _ & He)]]).
    + rewrite Ha in Hno. discriminate Hno.
    + discriminate He.
    + discriminate He.
    + discriminate He.
  - intros f r w' -> Hrun.
    destruct Hf as [Hf | (f' & [= <-] & Hin & Hne)]; [discriminate Hf|].
    destruct (run_returns_inv _ _ _ _ _ _ _ _ _ _ Hrun)
      as (_ & w1 & rs & ov & w2 & _ & _ & Ho & -> & _).
    cbn [run_status steps].
    exact (outcome_failure_shape _ _ _ _ _ _ _ _ Ho Hin Hne).
Qed.

Lemma checked_fail_step_fails_the_run_witness :
  exists r w',
    run_pipeline "r1" "worker@0.9.5" false false (Some "package") float_zero
      (sample_world [])
    = (Ok r, w') /\
    run_status r = "failed" /\
    failure_shape PIPELINE_STEPS "package" (steps r).
Proof.
  destruct (run_pipeline "r1" "worker@0.9.5" false false (Some "package")
              float_zero (sample_world [])) as [[r|e] w'] eqn:Hrun.
  - exists r, w'. split; [reflexivity|].
    refine (proj2 (checked_fail_step_fails_the_run 4300 (Some "worker@0.9.5")
                     (Some "package") (sample_terminal []) "worker@0.9.5"
                     (Some "package") (sample_terminal [])
                     "r1" false false float_zero (sample_world []) eq_refl)
              "package" r w' eq_refl Hrun).
  - vm_compute in Hrun. discriminate Hrun.
Defined.

(** ** [setup_logging] *)

Lemma remove_all_empties (hs : list Logging.Handler) : Logging.remove_all hs = [].
Proof.
  unfold Logging.remove_all. induction hs as [|h hs IH]; [reflexivity|].
  cbn [fold_left Logging.removeHandler]. now rewrite Nat.eqb_refl.
Qed.

(** X17.  When [setup_logging] returns, the root logger is at [DEBUG] and
    has exactly two handlers whatever it had before: the console at [INFO]
    ([DEBUG] when verbose) and the log file at [DEBUG], both tagging records
    with this run's id; the path returned is that of the log file,
    [log_dir / "<run_id>.log"].  So repeated calls never pile up
    handlers. *)
Theorem setup_logging_replaces_handlers
    (FS : Type) (mkdir open_log : string -> FS -> bool * FS) join
    rid log_dir verbose root fs p root' fs' :
  Logging.setup_logging mkdir open_log join rid log_dir verbose root fs
  = (Some p, root', fs') ->
  p = join log_dir (rid ++ ".log")%string /\
  Logging.level root' = Logging.DEBUG /\
  map (fun h => (Logging.target h, Logging.hlevel h, Logging.run_id_filter h))
    (Logging.handlers root')
  = [ (Logging.Stream, if verbose then Logging.DEBUG else Logging.INFO, Some rid);
      (Logging.File p, Logging.DEBUG, Some rid) ].
Proof.
  unfold Logging.setup_logging.
  destruct (mkdir log_dir fs) as [[|] fs1]; cbn [negb]; [|discriminate].
  destruct (open_log (join log_dir (rid ++ ".log")%string) fs1) as [[|] fs2];
    cbn [negb]; [|discriminate].
  intros [= <- <- <-]. cbn. rewrite remove_all_empties. auto.
Qed.

Lemma setup_logging_replaces_handlers_witness :
  exists root',
    Logging.setup_logging (fun _ (n : nat) => (true, S n))
      (fun _ n => (true, S n))
      (fun d f => (d ++ "/" ++ f)%string) "r1" "logs" false
      (Logging.mkRoot 30
         [Logging.mkHandler 0 Logging.Stream 20 (Some "r0") None;
          Logging.mkHandler 1 (Logging.File "logs/r0.log") 10 (Some "r0") None]
         2)
      0
    = (Some "logs/r1.log", root', 2) /\
    map (fun h => (Logging.target h, Logging.hlevel h, Logging.run_id_filter h))
      (Logging.handlers root')
    = [ (Logging.Stream, 20, Some "r1");
        (Logging.File "logs/r1.log", 10, Some "r1") ].
Proof.
  eexists. split; [reflexivity|].
  apply (setup_logging_replaces_handlers nat
           (fun _ n => (true, S n)) (fun _ n => (true, S n))
           (fun d f => (d ++ "/" ++ f)%string) "r1" "logs" false
           (Logging.mkRoot 30
              [Logging.mkHandler 0 Logging.Stream 20 (Some "r0") None;
               Logging.mkHandler 1 (Logging.File "logs/r0.log") 10
                 (Some "r0") None]
              2)
           0 "logs/r1.log" _ 2 eq_refl).
Defined.

(** X18.  When [setup_logging] raises because of the file system, the old
    handlers are never mixed with new ones: either the directory could not
    be made, and the root logger is untouched (the file system is as the
    failed [mkdir] left it, which may not be as it was), or the log file
    could not be opened, and the old handlers are gone and the root logger,
    now at [DEBUG], has the new console handler alone (the file system is
    as the failed opening left it). *)
Theorem setup_logging_failure_states
    (FS : Type) (mkdir open_log : string -> FS -> bool * FS) join
    rid log_dir verbose root fs root' fs' :
  Logging.setup_logging mkdir open_log join rid log_dir verbose root fs
  = (None, root', fs') ->
  (fst (mkdir log_dir fs) = false /\ root' = root /\
   fs' = snd (mkdir log_dir fs))
  \/ (fst (mkdir log_dir fs) = true /\
      open_log (join log_dir (rid ++ ".log")%string) (snd (mkdir log_dir fs))
      = (false, fs') /\
      Logging.level root' = Logging.DEBUG /\
      map (fun h => (Logging.target h, Logging.hlevel h, Logging.run_id_filter h))
        (Logging.handlers root')
      = [ (Logging.Stream, if verbose then Logging.DEBUG else Logging.INFO,
           Some rid) ]).
Proof.
  unfold Logging.setup_logging.
  destruct (mkdir log_dir fs) as [[|] fs1] eqn:Hm; cbn [negb fst snd].
  - destruct (open_log (join log_dir (rid ++ ".log")%string) fs1)
      as [[|] fs2] eqn:Ho; cbn [negb]; [discriminate|].
    intros [= <- <-]. right. cbn. rewrite remove_all_empties. auto.
  - intros [= <- <-]. now left.
Qed.

Lemma setup_logging_failure_states_witness :
  exists root',
    Logging.setup_logging (fun _ (n : nat) => (true, S n))
      (fun _ n => (false, n + 5))
      (fun d f => (d ++ "/" ++ f)%string) "r1" "logs" true
      (Logging.mkRoot 30
         [Logging.mkHandler 0 Logging.Stream 20 (Some "r0") None] 1)
      0
    = (None, root', 6) /\
    map (fun h => (Logging.target h, Logging.hlevel h, Logging.run_id_filter h))
      (Logging.handlers root')
    = [ (Logging.Stream, 10, Some "r1") ].
Proof.
  eexists. split; [reflexivity|].
  destruct (setup_logging_failure_states nat
              (fun _ n => (true, S n)) (fun _ n => (false, n + 5))
              (fun d f => (d ++ "/" ++ f)%string) "r1" "logs" true
              (Logging.mkRoot 30
                 [Logging.mkHandler 0 Logging.Stream 20 (Some "r0") None] 1)
              0 _ 6 eq_refl)
    as [(Hm & _) | (_ & _ & _ & Hh)].
  - discriminate Hm.
  - exact Hh.
Defined.

(** ** The table and the choice *)

(** X19.  The number shown beside an artifact in the table selects that
    artifact: row [n] of the table printed by [_render_artifacts] reads
    [n], the key and the description of the [n]-th artifact of the
    registry, and typing [n] at the prompt makes
    [_pick_artifact_interactive] return that key. *)
Theorem shown_number_selects_its_artifact max n a rest t :
  nth_error list_artifacts n = Some a ->
  stdin (host t) = str_of_nat (S n) :: rest ->
  (exists title columns rows,
     screen (snd (_render_artifacts t))
     = screen t ++ [OutTable title columns rows] /\
     nth_error rows n = Some [str_of_nat (S n); key a; description a]) /\
  _pick_artifact_interactive max t
  = (Ok (key a),
     after_lines t [str_of_nat (S n)] rest
       [artifacts_table; OutText select_prompt]).
Proof.
  intros Hn Hin. split.
  - rewrite render_artifacts_eq. cbn [snd after_lines screen].
    unfold artifacts_table. do 3 eexists. split; [reflexivity|].
    destruct n as [|[|[|n]]]; cbn in Hn;
      try (destruct n; discriminate Hn); injection Hn as <-; reflexivity.
  - assert (Hch : chosen max (map key list_artifacts) (str_of_nat (S n))
                  = Some (key a)).
    { destruct n as [|[|[|n]]]; cbn in Hn;
        try (destruct n; discriminate Hn); injection Hn as <-; reflexivity. }
    unfold _pick_artifact_interactive, tbind. rewrite render_artifacts_eq.
    rewrite (pick_loop_chosen max _ _ (str_of_nat (S n)) rest (key a))
      by (exact Hin || exact Hch).
    now rewrite after_lines_after_lines.
Qed.

Lemma shown_number_selects_its_artifact_witness :
  (exists title columns rows,
     screen (snd (_render_artifacts (sample_terminal ["3"; "y"])))
     = screen (sample_terminal ["3"; "y"]) ++ [OutTable title columns rows] /\
     nth_error rows 2
     = Some ["3"; "worker@0.9.5"; "Background worker binary"]) /\
  _pick_artifact_interactive 4300 (sample_terminal ["3"; "y"])
  = (Ok "worker@0.9.5",
     after_lines (sample_terminal ["3"; "y"]) ["3"] ["y"]
       [artifacts_table; OutText select_prompt]).
Proof.
  apply (shown_number_selects_its_artifact 4300 2
           (mkArtifact "worker@0.9.5" "Background worker binary") ["y"]
           (sample_terminal ["3"; "y"])); reflexivity.
Defined.
